(** * InstantAIConsultantcy: the report renderer and the retry workflow

    A shallow embedding of [app.py]: the line-by-line layout performed by
    [create_pdf], the generation call with its back-off loop
    ([generate_consultation]) and the payment-gated workflow loop
    ([payment_success]).

    Python values are modelled as follows.
    - A [str] is the list of its Unicode code points ([pystr]).
    - [str.strip], [str.startswith], [str.replace], [in], [str.split] and
      [str.isupper] follow CPython; the case tables of the Unicode
      database are a parameter ([CaseTables]) of the development.
    - Dictionaries are [gmap]s; a value that may be [None] is an [option].
    - The readings of [time.time()] are binary64 floats, subtracted and
      compared as Python does.
    - The external collaborators (clock, text-generation service, uuid
      source, typesetter, payment provider) are oracles indexed by the
      number of earlier calls ([Env]); the effects of a run are recorded
      in a trace of events ([World]). *)

From Stdlib Require Import ZArith NArith List Bool Lia.
From Stdlib Require Import Floats.PrimFloat.
From Stdlib Require Import Strings.String Strings.Ascii Numbers.DecimalString.
From stdpp Require Import base option list gmap.
Import ListNotations.

Set Default Proof Using "Type".

(** ** Python strings *)

Abbreviation pystr := (list N) (only parsing).

(** [u "abc"] is the Python literal ['abc'] (Basic Latin literals only). *)
Definition u (s : string) : pystr :=
  List.map N_of_ascii (list_ascii_of_string s).

Definition str_of_nat (n : nat) : pystr :=
  u (NilEmpty.string_of_uint (Nat.to_uint n)).

Definition chr_eqb (a b : N) : bool := N.eqb a b.

Fixpoint str_eqb (a b : pystr) : bool :=
  match a, b with
  | [], [] => true
  | x :: a', y :: b' => chr_eqb x y && str_eqb a' b'
  | _, _ => false
  end.

(** [Py_UNICODE_ISSPACE]: the code points [str.strip()] removes. *)
Definition isspace (c : N) : bool :=
  ((9 <=? c) && (c <=? 13) || (28 <=? c) && (c <=? 32)
   || (c =? 133) || (c =? 160) || (c =? 5760)
   || (8192 <=? c) && (c <=? 8202)
   || (c =? 8232) || (c =? 8233) || (c =? 8239) || (c =? 8287)
   || (c =? 12288))%N.

Fixpoint lstrip (s : pystr) : pystr :=
  match s with
  | [] => []
  | c :: s' => if isspace c then lstrip s' else s
  end.

Definition rstrip (s : pystr) : pystr := rev (lstrip (rev s)).

Definition strip (s : pystr) : pystr := rstrip (lstrip s).

Fixpoint startswith (s prefix : pystr) {struct prefix} : bool :=
  match prefix, s with
  | [], _ => true
  | p :: prefix', c :: s' => chr_eqb c p && startswith s' prefix'
  | _ :: _, [] => false
  end.

(** [sub in s]. *)
Fixpoint contains (sub s : pystr) : bool :=
  startswith s sub
  || match s with
     | [] => false
     | _ :: s' => contains sub s'
     end.

(** [s.replace(old, new)] for a one-character [old]. *)
Definition replace_chr (old : N) (new : pystr) (s : pystr) : pystr :=
  flat_map (fun c => if chr_eqb c old then new else [c]) s.

(** [s.split(sep)] for a one-character [sep]; never returns the empty list. *)
Fixpoint split_chr (sep : N) (s : pystr) : list pystr :=
  match s with
  | [] => [[]]
  | c :: s' =>
      if chr_eqb c sep then [] :: split_chr sep s'
      else match split_chr sep s' with
           | [] => [[c]]
           | piece :: pieces => (c :: piece) :: pieces
           end
  end.

(** [sep.join(items)]. *)
Fixpoint join (sep : pystr) (items : list pystr) : pystr :=
  match items with
  | [] => []
  | [x] => x
  | x :: rest => x ++ sep ++ join sep rest
  end.

(** Truth value of a string: empty is false. *)
Definition str_truthy (s : pystr) : bool :=
  match s with [] => false | _ :: _ => true end.

(** [f"{v}"] for a value that may be [None]. *)
Definition fmt (v : option pystr) : pystr :=
  match v with
  | Some s => s
  | None => u "None"
  end.

(** The part of the Unicode character database that [str.isupper],
    [str.lower] and [str.upper] consult. *)
Record CaseTables : Type := {
  ch_isupper : N -> bool;          (* Py_UNICODE_ISUPPER *)
  ch_islower : N -> bool;          (* Py_UNICODE_ISLOWER *)
  ch_istitle : N -> bool;          (* Py_UNICODE_ISTITLE *)
  str_lower : pystr -> pystr;      (* str.lower() *)
  str_upper : pystr -> pystr       (* str.upper() *)
}.

(** The tables restricted to Basic Latin: exact on U+0000..U+007F, every
    other code point is taken as uncased. *)
Definition latin_upper (c : N) : bool := ((65 <=? c) && (c <=? 90))%N.
Definition latin_lower (c : N) : bool := ((97 <=? c) && (c <=? 122))%N.

Definition basic_latin : CaseTables := {|
  ch_isupper := latin_upper;
  ch_islower := latin_lower;
  ch_istitle := fun _ => false;
  str_lower := List.map (fun c => if latin_upper c then (c + 32)%N else c);
  str_upper := List.map (fun c => if latin_lower c then (c - 32)%N else c)
|}.

Section Renderer.

Context (U : CaseTables).

(** The scan of [unicode_isupper_impl]: [cased] records whether an
    uppercase character has been seen. *)
Fixpoint isupper_scan (cased : bool) (s : pystr) : bool :=
  match s with
  | [] => cased
  | c :: s' =>
      if ch_islower U c || ch_istitle U c then false
      else if negb cased && ch_isupper U c then isupper_scan true s'
      else isupper_scan cased s'
  end.

Definition isupper (s : pystr) : bool :=
  match s with
  | [c] => ch_isupper U c
  | _ => isupper_scan false s
  end.

(** ** The layout of [create_pdf] *)

Inductive Style : Type :=
  | title_style | normal_style | header_style | date_style
  | bullet_style | sig_style.

Inductive Flowable : Type :=
  | Paragraph (text : pystr) (style : Style)
  | Spacer (width height : Z).

(** The literal of the first bullet test, as stored in the source file:
    the three code points U+00E2, U+20AC, U+00A2. *)
Definition bullet_literal : pystr := [226; 8364; 162]%N.

(** The bullet glyph U+2022. *)
Definition bullet_glyph : N := 8226%N.

Definition hash : N := 35%N.

(** The body of the [for para in paragraphs] loop. *)
Definition render_para (para : pystr) : list Flowable :=
  if str_truthy (strip para) then
    (if startswith (strip para) (u "#") then
       let header_text := strip (replace_chr hash [] para) in
       [Paragraph header_text header_style]
     else if isupper (strip para) && (3 <? length (strip para)) then
       [Paragraph (strip para) header_style]
     else if startswith (strip para) bullet_literal
             || startswith (strip para) (u "-")
             || startswith (strip para) (u "*") then
       [Paragraph (strip para) bullet_style]
     else if contains (u "signature") (str_lower U para)
             || contains (u "sign") (str_lower U para)
             || contains (u "date:") (str_lower U para) then
       [Paragraph para sig_style]
     else
       [Paragraph para normal_style])
    ++
    (if startswith (strip para) (u "#") || isupper (strip para) then
       [Spacer 1 10]
     else
       [Spacer 1 6])
  else [].

(** The role of a line: the branch of the chain above that lays it out. *)
Inductive Role : Type :=
  | Header | UppercaseHeader | Bullet | Signature | Body | Blank.

Definition classify (line : pystr) : Role :=
  if negb (str_truthy (strip line)) then Blank
  else if startswith (strip line) (u "#") then Header
  else if isupper (strip line) && (3 <? length (strip line)) then
    UppercaseHeader
  else if startswith (strip line) bullet_literal
          || startswith (strip line) (u "-")
          || startswith (strip line) (u "*") then Bullet
  else if contains (u "signature") (str_lower U line)
          || contains (u "sign") (str_lower U line)
          || contains (u "date:") (str_lower U line) then Signature
  else Body.

(** The paragraph laid out for a line of a given role. *)
Definition role_paragraph (line : pystr) (r : Role) : list Flowable :=
  match r with
  | Blank => []
  | Header => [Paragraph (strip (replace_chr hash [] line)) header_style]
  | UppercaseHeader => [Paragraph (strip line) header_style]
  | Bullet => [Paragraph (strip line) bullet_style]
  | Signature => [Paragraph line sig_style]
  | Body => [Paragraph line normal_style]
  end.

(** The spacer that follows a non-blank line. *)
Definition spacer_after (para : pystr) : Flowable :=
  if startswith (strip para) (u "#") || isupper (strip para) then Spacer 1 10
  else Spacer 1 6.

(** The text of a header paragraph in the source. *)
Definition header_text (para : pystr) : pystr :=
  strip (replace_chr hash [] para).

End Renderer.

(** ** Exceptions, events and worlds *)

(** Every exception of the program is an [Exception]; the payment
    provider's errors are the subclass that [payment_success] tells apart.
    Both carry the message that [str(e)] returns. *)
Inductive exn : Type :=
  | StripeError (msg : pystr)
  | Exception (msg : pystr).

Definition str_exn (e : exn) : pystr :=
  match e with
  | StripeError msg => msg
  | Exception msg => msg
  end.

Inductive Level : Type := LvlInfo | LvlWarning | LvlError.

(** The keyword arguments of [client.chat.completions.create]. *)
Record ChatRequest : Type := {
  model : pystr;
  system_content : pystr;
  user_content : pystr;
  timeout : Z;
  max_tokens : Z
}.

Inductive Event : Type :=
  | EvRetrieve (session_id : option pystr)   (* stripe.checkout.Session.retrieve *)
  | EvTime                                   (* time.time() *)
  | EvSleep (seconds : Z)                    (* time.sleep *)
  | EvChat (req : ChatRequest)               (* the text-generation call *)
  | EvUuid                                   (* uuid.uuid4() *)
  | EvMakedirs (dir : pystr)                 (* os.makedirs(dir, exist_ok=True) *)
  | EvRender (filepath : pystr) (content : list Flowable)   (* a create_pdf run *)
  | EvWrite (filepath : pystr)               (* the artifact written by doc.build *)
  | EvLog (lvl : Level) (msg : pystr).       (* app.logger *)

(** The trace of a run, latest event first. *)
Definition World : Type := list Event.

Definition is_time (e : Event) : bool :=
  match e with EvTime => true | _ => false end.
Definition is_chat (e : Event) : bool :=
  match e with EvChat _ => true | _ => false end.
Definition is_uuid (e : Event) : bool :=
  match e with EvUuid => true | _ => false end.
Definition is_render (e : Event) : bool :=
  match e with EvRender _ _ => true | _ => false end.
Definition is_retrieve (e : Event) : bool :=
  match e with EvRetrieve _ => true | _ => false end.

Fixpoint count (p : Event -> bool) (w : World) : nat :=
  match w with
  | [] => 0
  | e :: w' => if p e then S (count p w') else count p w'
  end.

(** Number of text-generation calls, renderer runs and clock readings. *)
Definition chat_calls (w : World) : nat := count is_chat w.
Definition render_calls (w : World) : nat := count is_render w.
Definition clock_reads (w : World) : nat := count is_time w.

(** The artifact files created so far, latest first. *)
Fixpoint files (w : World) : list pystr :=
  match w with
  | [] => []
  | EvWrite p :: w' => p :: files w'
  | _ :: w' => files w'
  end.

(** The durations slept so far, latest first. *)
Fixpoint sleeps (w : World) : list Z :=
  match w with
  | [] => []
  | EvSleep d :: w' => d :: sleeps w'
  | _ :: w' => sleeps w'
  end.

(** The behaviour of the collaborators; the [n]-th call of each is the
    call made after [n] earlier ones. *)
Record Env : Type := {
  time_time : nat -> float;
  chat_completions_create : nat -> ChatRequest -> exn + pystr;
  uuid4_hex : nat -> pystr;
  strftime_now : nat -> pystr;
  (* the typesetter: building the paragraphs and [doc.build(content)] *)
  doc_build : nat -> pystr -> list Flowable -> option exn;
  (* [Session.retrieve] followed by [json.loads] of its form data *)
  session_form_data : nat -> option pystr -> exn + gmap pystr pystr;
  DOWNLOAD_FOLDER : pystr;
  getenv_BYPASS_PAYMENT : option pystr
}.

(** ** The monad of the handlers: state and exceptions *)

Definition M (A : Type) : Type := World -> (exn + A) * World.

Definition ret {A : Type} (a : A) : M A := fun w => (inr a, w).

Definition raise {A : Type} (e : exn) : M A := fun w => (inl e, w).

Definition bind {A B : Type} (m : M A) (k : A -> M B) : M B :=
  fun w =>
    match m w with
    | (inl e, w') => (inl e, w')
    | (inr a, w') => k a w'
    end.

(** [try: m except Exception as e: h e]. *)
Definition try_except {A : Type} (m : M A) (h : exn -> M A) : M A :=
  fun w =>
    match m w with
    | (inl e, w') => h e w'
    | (inr a, w') => (inr a, w')
    end.

(** [try: m except stripe.error.StripeError as e: h1 e
    except Exception as e: h2 e]. *)
Definition try_except2 {A : Type} (m : M A) (h1 h2 : exn -> M A) : M A :=
  fun w =>
    match m w with
    | (inl (StripeError msg), w') => h1 (StripeError msg) w'
    | (inl (Exception msg), w') => h2 (Exception msg) w'
    | (inr a, w') => (inr a, w')
    end.

Definition emit (e : Event) : M unit := fun w => (inr tt, e :: w).

Declare Scope py_scope.
Delimit Scope py_scope with py.
Notation "'let*' x ':=' m 'in' k" := (bind m (fun x => k))
  (at level 10, x name, m at level 100, k at level 200) : py_scope.
Notation "m1 ';;' m2" := (bind m1 (fun _ => m2))
  (at level 100, m2 at level 200, right associativity) : py_scope.

Definition logger (lvl : Level) (msg : pystr) : M unit := emit (EvLog lvl msg).
Definition sleep (seconds : Z) : M unit := emit (EvSleep seconds).

(** ** Paths *)

Definition sep : N := 47%N.

Definition endswith (s suffix : pystr) : bool :=
  startswith (rev s) (rev suffix).

(** [os.path.join(a, b)] of [posixpath]. *)
Definition path_join (a b : pystr) : pystr :=
  if startswith b [sep] then b
  else if negb (str_truthy a) || endswith a [sep] then a ++ b
  else a ++ [sep] ++ b.

Fixpoint drop_until_sep (r : pystr) : pystr :=
  match r with
  | [] => []
  | c :: r' => if chr_eqb c sep then r else drop_until_sep r'
  end.

Fixpoint drop_seps (r : pystr) : pystr :=
  match r with
  | [] => []
  | c :: r' => if chr_eqb c sep then drop_seps r' else r
  end.

(** [os.path.dirname(p)] of [posixpath]. *)
Definition dirname (p : pystr) : pystr :=
  let head_rev := drop_until_sep (rev p) in
  if str_truthy head_rev && negb (forallb (chr_eqb sep) head_rev)
  then rev (drop_seps head_rev)
  else rev head_rev.

(** ** Values of result dictionaries *)

Inductive pyval : Type :=
  | PyBool (b : bool)
  | PyStr (s : pystr).

(** Truth value of [d.get(k)]. *)
Definition truthy (v : option pyval) : bool :=
  match v with
  | None => false
  | Some (PyBool b) => b
  | Some (PyStr s) => str_truthy s
  end.

(** [f"{v}"]. *)
Definition fmt_val (v : pyval) : pystr :=
  match v with
  | PyBool true => u "True"
  | PyBool false => u "False"
  | PyStr s => s
  end.

(** A Flask response: the JSON body and the status code. *)
Record Response : Type := {
  body : gmap pystr pyval;
  status : Z
}.

(** [jsonify(d)] and [jsonify(d), code]. *)
Definition jsonify (d : gmap pystr pyval) : Response :=
  {| body := d; status := 200 |}.
Definition jsonify_status (d : gmap pystr pyval) (code : Z) : Response :=
  {| body := d; status := code |}.

Definition CONSULTANCY_TYPES : gmap pystr pystr :=
  list_to_map
    [ (u "strategy", u "AI Business Strategy Consultation");
      (u "implementation", u "AI Implementation Plan");
      (u "audit", u "AI Readiness Audit");
      (u "roadmap", u "AI Adoption Roadmap");
      (u "ethics", u "AI Ethics Framework");
      (u "training", u "AI Training Program") ].

(** [CONSULTANCY_TYPES.get(key, dflt)] for a key that may be [None]. *)
Definition consultancy_label (key : option pystr) (dflt : pystr) : pystr :=
  match key with
  | Some k => default dflt (CONSULTANCY_TYPES !! k)
  | None => dflt
  end.

(** Truth value of [form_data.get(k)]. *)
Definition field_truthy (v : option pystr) : bool :=
  match v with
  | Some s => str_truthy s
  | None => false
  end.

Definition nl : pystr := [10%N].

(** The f-string of [generate_consultation]. *)
Definition build_prompt (consultancy_type business_name business_type
                         industry business_size : option pystr)
                        (focus_areas : list pystr)
                        (additional_instructions : pystr) : pystr :=
  (u "Generate a comprehensive "
   ++ consultancy_label consultancy_type (u "AI Consultancy")
   ++ u " report for " ++ fmt business_name
   ++ u ", a " ++ fmt business_size ++ u " " ++ fmt business_type
   ++ u " in the " ++ fmt industry ++ u " industry." ++ nl
   ++ nl
   ++ u "Focus Areas: "
   ++ (match focus_areas with
       | _ :: _ => join (u ", ") focus_areas
       | [] => u "General AI Adoption"
       end) ++ nl
   ++ nl
   ++ u "Additional Instructions: " ++ additional_instructions ++ nl
   ++ nl
   ++ u "**Report Structure Guidelines:**" ++ nl
   ++ u "1. Executive Summary (1 paragraph)" ++ nl
   ++ u "2. Current State Analysis" ++ nl
   ++ u "3. Key Opportunities for AI Adoption" ++ nl
   ++ u "4. Recommended AI Solutions" ++ nl
   ++ u "5. Implementation Roadmap" ++ nl
   ++ u "6. Risk Assessment" ++ nl
   ++ u "7. ROI Projections" ++ nl
   ++ u "8. Next Steps" ++ nl
   ++ nl
   ++ u "Format the report professionally with clear headings, bullet points for key recommendations, and data-driven insights. Use business-friendly language while maintaining technical accuracy."
   ++ nl)%list.

Section Workflow.

Context (U : CaseTables) (env : Env).

Local Open Scope py_scope.

(** ** [create_pdf] *)

(** The list [content] handed to [doc.build]; [date] is the formatted
    [datetime.now()]. *)
Definition pdf_content (text : pystr) (business_name : option pystr)
                       (document_type date : pystr) : list Flowable :=
  [ Paragraph (str_upper U document_type) title_style;
    Paragraph (u "For: " ++ fmt business_name) title_style;
    Spacer 1 20;
    Paragraph (u "Date: " ++ date) date_style;
    Spacer 1 20 ]
  ++ flat_map (render_para U) (split_chr 10 text).

Definition create_pdf (text filepath : pystr) (business_name : option pystr)
                      (document_type : pystr) : M unit :=
  fun w =>
    let n := render_calls w in
    let content :=
      pdf_content text business_name document_type (strftime_now env n) in
    match doc_build env n filepath content with
    | Some e => (inl e, EvRender filepath content :: w)
    | None => (inr tt, EvWrite filepath :: EvRender filepath content :: w)
    end.

(** ** [generate_consultation] *)

Definition chat_request (prompt : pystr) : ChatRequest := {|
  model := u "gpt-4-turbo-preview";
  system_content := u "You are an AI business consultant that creates professional, actionable reports to help businesses adopt AI technologies effectively.";
  user_content := prompt;
  timeout := 30;
  max_tokens := 4000
|}.

(** [client.chat.completions.create(...)] and the read of
    [response.choices[0].message.content]. *)
Definition chat_create (req : ChatRequest) : M pystr :=
  fun w =>
    match chat_completions_create env (chat_calls w) req with
    | inl e => (inl e, EvChat req :: w)
    | inr text => (inr text, EvChat req :: w)
    end.

(** The loop [for attempt in range(max_retries)] over the attempts still to
    run; [Some text] when it leaves by [break], [None] when the range is
    exhausted. *)
Fixpoint chat_loop (prompt : pystr) (max_retries : nat) (attempts : list nat)
                   (retry_delay : Z) : M (option pystr) :=
  match attempts with
  | [] => ret None
  | attempt :: rest =>
      let* r :=
        try_except
          (let* document_text := chat_create (chat_request prompt) in
           ret (inl document_text))
          (fun e =>
             logger LvlError
               (u "OpenAI API error (attempt " ++ str_of_nat (attempt + 1)
                ++ u "/" ++ str_of_nat max_retries ++ u "): " ++ str_exn e) ;;
             if attempt <? max_retries - 1 then
               sleep retry_delay ;;
               ret (inr (retry_delay * 2)%Z)
             else
               logger LvlError
                 (u "All " ++ str_of_nat max_retries
                  ++ u " attempts to call OpenAI API failed") ;;
               raise (Exception
                 (u "Failed to generate consultation after "
                  ++ str_of_nat max_retries ++ u " attempts: " ++ str_exn e)))
      in
      match r with
      | inl document_text => ret (Some document_text)
      | inr retry_delay' => chat_loop prompt max_retries rest retry_delay'
      end
  end.

Definition uuid4_hex8 : M pystr :=
  fun w => (inr (take 8 (uuid4_hex env (count is_uuid w))), EvUuid :: w).

(** The list [focus_areas] collected from the check boxes of the form. *)
Definition focus_areas_of (form_data : gmap pystr pystr) : list pystr :=
  (if field_truthy (form_data !! u "focus_strategy")
   then [u "Business Strategy"] else [])
  ++ (if field_truthy (form_data !! u "focus_operations")
      then [u "Operations Optimization"] else [])
  ++ (if field_truthy (form_data !! u "focus_marketing")
      then [u "Marketing & Sales"] else [])
  ++ (if field_truthy (form_data !! u "focus_customer")
      then [u "Customer Experience"] else []).

(** The [prompt] built from the form. *)
Definition prompt_of (form_data : gmap pystr pystr) : pystr :=
  let consultancy_type := form_data !! u "consultancy_type" in
  let business_name := form_data !! u "business_name" in
  let business_type := form_data !! u "business_type" in
  let industry := form_data !! u "industry" in
  let business_size := form_data !! u "business_size" in
  let additional_instructions :=
    default [] (form_data !! u "additional_instructions") in
  build_prompt consultancy_type business_name business_type industry
               business_size (focus_areas_of form_data)
               additional_instructions.

(** [f"{consultancy_type}_{unique_id}.pdf"]. *)
Definition artifact_name (consultancy_type : option pystr)
                         (unique_id : pystr) : pystr :=
  fmt consultancy_type ++ u "_" ++ unique_id ++ u ".pdf".

(** The dictionary returned on success. *)
Definition success_result (filename : pystr) : gmap pystr pyval :=
  {[ u "success" := PyBool true;
     u "download_url" := PyStr (u "/download/" ++ filename) ]}.

Definition generate_consultation (form_data : gmap pystr pystr)
  : M (gmap pystr pyval) :=
  try_except
    (let consultancy_type := form_data !! u "consultancy_type" in
     let business_name := form_data !! u "business_name" in
     let prompt := prompt_of form_data in
     let max_retries := 3 in
     let retry_delay := 2%Z in
     let* bound := chat_loop prompt max_retries (seq 0 max_retries) retry_delay in
     match bound with
     | None =>
         (* [document_text] was never assigned *)
         raise (Exception (u "local variable 'document_text' referenced before assignment"))
     | Some document_text =>
         let* unique_id := uuid4_hex8 in
         let filename := artifact_name consultancy_type unique_id in
         let filepath := path_join (DOWNLOAD_FOLDER env) filename in
         emit (EvMakedirs (dirname filepath)) ;;
         create_pdf document_text filepath business_name
           (consultancy_label consultancy_type (u "AI Consultancy Report")) ;;
         ret (success_result filename)
     end)
    (fun e =>
       logger LvlError (u "OpenAI API error: " ++ str_exn e) ;;
       raise (Exception (u "Failed to generate consultation: " ++ str_exn e))).

(** ** [payment_success] *)

Definition time_now : M float :=
  fun w => (inr (time_time env (clock_reads w)), EvTime :: w).

(** [now - start_time > timeout_limit] on the doubles that [time.time()]
    returns: the difference is the rounded one of binary64. *)
Definition over_budget (now start_time timeout_limit : float) : bool :=
  PrimFloat.ltb timeout_limit (PrimFloat.sub now start_time).

Definition processing_response : Response :=
  jsonify_status
    {[ u "status" := PyStr (u "processing");
       u "message" := PyStr (u "Your consultation report is still being generated. Please wait a moment and try again.") ]}
    202.

Definition error_response (msg : pystr) (code : Z) : Response :=
  jsonify_status {[ u "error" := PyStr msg ]} code.

(** The loop [for attempt in range(max_retries)] of the workflow over the
    attempts still to run; [Some r] when an iteration returns [r], [None]
    when the range is exhausted. *)
Fixpoint attempts_loop (form_data : gmap pystr pystr)
                       (start_time timeout_limit : float) (max_retries : nat)
                       (attempts : list nat) (retry_delay : Z)
  : M (option Response) :=
  match attempts with
  | [] => ret None
  | attempt :: rest =>
      let* r :=
        try_except
          (let* now := time_now in
           if over_budget now start_time timeout_limit then
             logger LvlWarning
               (u "Approaching timeout limit, returning processing status") ;;
             ret (inl processing_response)
           else
             let* document_result := generate_consultation form_data in
             if truthy (document_result !! u "success") then
               ret (inl (jsonify document_result))
             else
               let error_msg :=
                 default (PyStr (u "Unknown error"))
                         (document_result !! u "error") in
               logger LvlError
                 (u "Consultation generation failed: " ++ fmt_val error_msg) ;;
               if attempt <? max_retries - 1 then
                 sleep retry_delay ;;
                 logger LvlInfo
                   (u "Retrying consultation generation (attempt "
                    ++ str_of_nat (attempt + 2) ++ u "/"
                    ++ str_of_nat max_retries ++ u ")") ;;
                 ret (inr (retry_delay * 2)%Z)
               else
                 ret (inl (error_response
                   (u "Failed to generate consultation after "
                    ++ str_of_nat max_retries ++ u " attempts: "
                    ++ fmt_val error_msg) 500)))
          (fun doc_error =>
             logger LvlError
               (u "Consultation generation exception (attempt "
                ++ str_of_nat (attempt + 1) ++ u "/"
                ++ str_of_nat max_retries ++ u "): " ++ str_exn doc_error) ;;
             if attempt <? max_retries - 1 then
               sleep retry_delay ;;
               logger LvlInfo
                 (u "Retrying consultation generation (attempt "
                  ++ str_of_nat (attempt + 2) ++ u "/"
                  ++ str_of_nat max_retries ++ u ")") ;;
               ret (inr (retry_delay * 2)%Z)
             else
               ret (inl (error_response
                 (u "Consultation generation failed after "
                  ++ str_of_nat max_retries ++ u " attempts: "
                  ++ str_exn doc_error) 500)))
      in
      match r with
      | inl response => ret (Some response)
      | inr retry_delay' =>
          attempts_loop form_data start_time timeout_limit max_retries rest
                        retry_delay'
      end
  end.

Definition retrieve_form_data (session_id : option pystr)
  : M (gmap pystr pystr) :=
  fun w =>
    match session_form_data env (count is_retrieve w) session_id with
    | inl e => (inl e, EvRetrieve session_id :: w)
    | inr form_data => (inr form_data, EvRetrieve session_id :: w)
    end.

(** The part of [payment_success] that follows the decoding of the form
    data: the clock is started and the attempts are run. *)
Definition run_attempts (form_data : gmap pystr pystr) : M (option Response) :=
  let* start_time := time_now in
  let timeout_limit := 25%float in
  let max_retries := 2 in
  let retry_delay := 1%Z in
  attempts_loop form_data start_time timeout_limit max_retries
                (seq 0 max_retries) retry_delay.

(** The route handler; [None] is Python's [None], returned when the loop
    ends without a [return]. *)
Definition payment_success (session_id : option pystr) : M (option Response) :=
  try_except2
    (let* form_data := retrieve_form_data session_id in
     run_attempts form_data)
    (fun e =>
       logger LvlError (u "Stripe error: " ++ str_exn e) ;;
       ret (Some (error_response
         (u "Payment verification failed: " ++ str_exn e) 400)))
    (fun e =>
       logger LvlError (u "Payment success route error: " ++ str_exn e) ;;
       ret (Some (error_response
         (u "An unexpected error occurred: " ++ str_exn e) 500))).

(** ** [handle_report_generation] *)

Definition handle_report_generation (form : gmap pystr pystr) : M Response :=
  try_except
    (if str_eqb (str_lower U (default (u "false") (getenv_BYPASS_PAYMENT env)))
                (u "true")
     then
       let* result := generate_consultation form in
       ret (jsonify result)
     else
       ret (error_response (u "Payment required") 402))
    (fun e =>
       logger LvlError (u "Error generating report: " ++ str_exn e) ;;
       ret (error_response (u "Failed to generate report: " ++ str_exn e) 500)).

End Workflow.

(** ** Scripted collaborators for concrete runs *)

(** An environment whose clock, text-generation service and typesetter
    follow the given scripts; the other collaborators are fixed. *)
Definition scripted (clock : nat -> float) (chat : nat -> exn + pystr)
                    (build : nat -> option exn)
                    (form_data : gmap pystr pystr) : Env := {|
  time_time := clock;
  chat_completions_create := fun n _ => chat n;
  uuid4_hex := fun _ => u "0123456789abcdef0123456789abcdef";
  strftime_now := fun _ => u "January 01, 2025";
  doc_build := fun n _ _ => build n;
  session_form_data := fun _ _ => inr form_data;
  DOWNLOAD_FOLDER := u "/app/static/downloads";
  getenv_BYPASS_PAYMENT := None
|}.

Definition acme_form : gmap pystr pystr :=
  list_to_map
    [ (u "consultancy_type", u "strategy");
      (u "business_name", u "Acme");
      (u "business_type", u "LLC");
      (u "industry", u "retail");
      (u "business_size", u "small");
      (u "focus_strategy", u "on") ].

Definition sample_report : pystr :=
  u "# Plan" ++ nl ++ u "- Adopt AI now" ++ nl ++ u "Please sign below".

Definition frozen_clock : nat -> float := fun _ => 0%float.

(** The service fails on calls 0 and 1 and answers from call 2 on. *)
Definition env_two_failures : Env :=
  scripted frozen_clock
    (fun n => if n <? 2 then inl (Exception (u "timeout"))
              else inr sample_report)
    (fun _ => None) acme_form.




(** Thirty seconds pass between the start of the clock and the first
    budget test. *)
Definition env_slow_start : Env :=
  scripted (fun n => if n =? 0 then 0%float else 30%float)
    (fun _ => inr sample_report) (fun _ => None) acme_form.

(** A form without [consultancy_type]. *)
Definition env_no_type : Env :=
  scripted frozen_clock (fun _ => inr sample_report) (fun _ => None) ∅.

(** The header text as the specification words it: the leading ['#']
    characters of the trimmed line removed, then the surrounding
    whitespace stripped. *)
Fixpoint lstrip_hashes (s : pystr) : pystr :=
  match s with
  | [] => []
  | c :: s' => if chr_eqb c hash then lstrip_hashes s' else s
  end.

Definition spec_header_text (line : pystr) : pystr :=
  strip (lstrip_hashes (strip line)).

(** A string made of whitespace only. *)
Definition blank (s : pystr) : Prop := forallb isspace s = true.

(** ** Names for the events and values of a run *)

Definition attempt_exception_log (attempt max_retries : nat) (e : exn) : Event :=
  EvLog LvlError
    (u "Consultation generation exception (attempt "
     ++ str_of_nat (attempt + 1) ++ u "/"
     ++ str_of_nat max_retries ++ u "): " ++ str_exn e).

Definition attempt_retry_log (attempt max_retries : nat) : Event :=
  EvLog LvlInfo
    (u "Retrying consultation generation (attempt "
     ++ str_of_nat (attempt + 2) ++ u "/"
     ++ str_of_nat max_retries ++ u ")").

Definition budget_log : Event :=
  EvLog LvlWarning (u "Approaching timeout limit, returning processing status").

(** The response of the workflow when its last attempt raised [e]. *)
Definition attempts_failed_response (max_retries : nat) (e : exn) : Response :=
  error_response
    (u "Consultation generation failed after "
     ++ str_of_nat max_retries ++ u " attempts: " ++ str_exn e) 500.

(** The exception of the inner loop when its last call raised [e]. *)
Definition exhausted_error (e : exn) : exn :=
  Exception
    (u "Failed to generate consultation after "
     ++ str_of_nat 3 ++ u " attempts: " ++ str_exn e).

(** The budget of [payment_success]. *)
Definition budget : float := 25%float.

Section Runs.

Context (U : CaseTables) (env : Env).

Definition chat_error_log (attempt max_retries : nat) (e : exn) : Event :=
  EvLog LvlError
    (u "OpenAI API error (attempt " ++ str_of_nat (attempt + 1)
     ++ u "/" ++ str_of_nat max_retries ++ u "): " ++ str_exn e).

Definition chat_gave_up_log (max_retries : nat) : Event :=
  EvLog LvlError
    (u "All " ++ str_of_nat max_retries
     ++ u " attempts to call OpenAI API failed").

Definition generation_error_log (e : exn) : Event :=
  EvLog LvlError (u "OpenAI API error: " ++ str_exn e).

Definition generation_error (e : exn) : exn :=
  Exception (u "Failed to generate consultation: " ++ str_exn e).

(** The artifact name, path and content for a text delivered in world [w1]. *)
Definition run_filename (form_data : gmap pystr pystr) (w1 : World) : pystr :=
  artifact_name (form_data !! u "consultancy_type")
                (take 8 (uuid4_hex env (count is_uuid w1))).

Definition run_filepath (form_data : gmap pystr pystr) (w1 : World) : pystr :=
  path_join (DOWNLOAD_FOLDER env) (run_filename form_data w1).

Definition run_content (form_data : gmap pystr pystr) (text : pystr)
                       (w1 : World) : list Flowable :=
  pdf_content U text (form_data !! u "business_name")
    (consultancy_label (form_data !! u "consultancy_type")
                       (u "AI Consultancy Report"))
    (strftime_now env (render_calls w1)).

(** The world in which the typesetter is run. *)
Definition before_render (form_data : gmap pystr pystr) (w1 : World) : World :=
  EvMakedirs (dirname (run_filepath form_data w1)) :: EvUuid :: w1.

End Runs.

(** ** Measures of a run *)

(** The test [if para.strip()] of [create_pdf]. *)
Definition nonblank (line : pystr) : bool := str_truthy (strip line).

(** A character that [create_pdf] drops from a header line or that
    [strip] may remove. *)
Definition hash_or_space (c : N) : bool := chr_eqb c hash || isspace c.

(** The seconds slept in a trace. *)
Definition total_sleep (w : World) : Z := fold_right Z.add 0%Z (sleeps w).

(** [w'] extends the effects of [w] by at most [chats] text-generation
    calls, [renders] renderer runs and artifact files, [reads] clock
    readings and [slept] seconds of sleep, and takes nothing away. *)
Definition effects_within (w w' : World) (chats renders reads : nat)
                          (slept : Z) : Prop :=
  chat_calls w <= chat_calls w' <= chat_calls w + chats
  /\ render_calls w <= render_calls w' <= render_calls w + renders
  /\ length (files w) <= length (files w') <= length (files w) + renders
  /\ clock_reads w <= clock_reads w' <= clock_reads w + reads
  /\ (total_sleep w <= total_sleep w' <= total_sleep w + slept)%Z.

(** ** Further scripted collaborators *)


(** The service fails on its first three calls and answers the fourth. *)
Definition env_three_failures : Env :=
  scripted frozen_clock
    (fun n => if n <? 3 then inl (Exception (u "timeout"))
              else inr sample_report)
    (fun _ => None) acme_form.

(** A form whose [consultancy_type] is an absolute path. *)
Definition absolute_type_form : gmap pystr pystr :=
  {[ u "consultancy_type" := u "/tmp/report" ]}.

Definition env_absolute_type : Env :=
  scripted frozen_clock (fun _ => inr sample_report) (fun _ => None)
    absolute_type_form.

(** ** [health_check] *)

(** The collaborators of the probe: [stripe.Account.retrieve()], which
    raises or not, the ids of [client.models.list(timeout=5).data], and
    [datetime.now().isoformat()]. *)
Record HealthEnv : Type := {
  account_retrieve : option exn;
  models_list : exn + list pystr;
  isoformat_now : pystr
}.

Inductive Probe : Type :=
  | ProbeStripe
  | ProbeModels (timeout : Z).

(** [x in l] for a list of strings. *)
Definition str_in (x : pystr) (l : list pystr) : bool := existsb (str_eqb x) l.

(** The response of the probe and the calls it has made, latest first. *)
Definition health_check (h : HealthEnv) : Response * list Probe :=
  match account_retrieve h with
  | None =>
      let openai_status :=
        match models_list h with
        | inr available_models =>
            if negb (str_in (u "gpt-4-turbo-preview") available_models)
            then u "warning: gpt-4-turbo-preview not available"
            else u "ok"
        | inl e => u "error: " ++ str_exn e
        end in
      (jsonify {[ u "status" := PyStr (u "healthy");
                  u "timestamp" := PyStr (isoformat_now h);
                  u "stripe" := PyStr (u "ok");
                  u "openai" := PyStr openai_status ]},
       [ProbeModels 5; ProbeStripe])
  | Some e =>
      (jsonify_status {[ u "status" := PyStr (u "unhealthy");
                         u "error" := PyStr (str_exn e);
                         u "timestamp" := PyStr (isoformat_now h) ]} 500,
       [ProbeStripe])
  end.

(** The payment provider is reachable, the text-generation service is not. *)
Definition health_openai_down : HealthEnv := {|
  account_retrieve := None;
  models_list := inl (Exception (u "Connection error."));
  isoformat_now := u "2025-01-01T00:00:00"
|}.

(** Both collaborators answer and the model is listed. *)
Definition health_all_up : HealthEnv := {|
  account_retrieve := None;
  models_list := inr [u "gpt-4o"; u "gpt-4-turbo-preview"];
  isoformat_now := u "2025-01-01T00:00:00"
|}.

(** The payment provider is not reachable. *)
Definition health_stripe_down : HealthEnv := {|
  account_retrieve := Some (StripeError (u "Invalid API Key provided"));
  models_list := inr [u "gpt-4-turbo-preview"];
  isoformat_now := u "2025-01-01T00:00:00"
|}.

(** ** The order of calls and sleeps *)

Inductive Step : Type :=
  | Call                      (* a call of the text-generation service *)
  | Sleep (seconds : Z).      (* a [time.sleep] *)

(** The calls and sleeps of a trace, latest first. *)
Fixpoint schedule (w : World) : list Step :=
  match w with
  | [] => []
  | EvChat _ :: w' => Call :: schedule w'
  | EvSleep d :: w' => Sleep d :: schedule w'
  | _ :: w' => schedule w'
  end.

(** The service fails on calls 0 and 1 and answers call 2; the typesetter
    rejects the document. *)
Definition env_two_failures_rejected : Env :=
  scripted frozen_clock
    (fun n => if n <? 2 then inl (Exception (u "timeout"))
              else inr sample_report)
    (fun _ => Some (Exception (u "paraparser: syntax error"))) acme_form.

(** The service never answers, and thirty seconds have passed when the
    second attempt is about to start. *)
Definition env_slow_retry : Env :=
  scripted (fun n => if n <? 2 then 0%float else 30%float)
    (fun _ => inl (Exception (u "service down")))
    (fun _ => None) acme_form.

(** * Properties of the line layout *)

Section RendererFacts.

Context (U : CaseTables).

Lemma startswith_hash_inv (s : pystr) :
  startswith s (u "#") = true -> exists s', s = hash :: s'.
Proof.
  destruct s as [|c s']; [discriminate|].
  change (startswith (c :: s') (u "#")) with (chr_eqb c hash && true).
  rewrite andb_true_r. unfold chr_eqb. intros H%N.eqb_eq. subst c.
  now exists s'.
Qed.

Lemma startswith_hash_truthy (s : pystr) :
  startswith s (u "#") = true -> str_truthy s = true.
Proof. intros [s' ->]%startswith_hash_inv. reflexivity. Qed.

(** [render_para] lays a line out by its role and adds the spacer. *)
Lemma render_para_classify (line : pystr) :
  render_para U line =
    match classify U line with
    | Blank => []
    | r => role_paragraph line r ++ [spacer_after U line]
    end.
Proof.
  unfold render_para, classify, spacer_after.
  destruct (str_truthy (strip line)); [|reflexivity].
  destruct (startswith (strip line) (u "#")); [reflexivity|].
  destruct (isupper U (strip line)), (3 <? length (strip line));
    try reflexivity;
    destruct (startswith (strip line) bullet_literal
              || startswith (strip line) (u "-")
              || startswith (strip line) (u "*"));
    try reflexivity;
    destruct (contains (u "signature") (str_lower U line)
              || contains (u "sign") (str_lower U line)
              || contains (u "date:") (str_lower U line)); reflexivity.
Qed.

(** ['#'] beats every later rule. *)
Lemma classify_hash (line : pystr) :
  startswith (strip line) (u "#") = true -> classify U line = Header.
Proof.
  intros H. unfold classify.
  rewrite (startswith_hash_truthy _ H), H. reflexivity.
Qed.

Lemma spacer_after_hash (line : pystr) :
  startswith (strip line) (u "#") = true -> spacer_after U line = Spacer 1 10.
Proof. intros H. unfold spacer_after. now rewrite H. Qed.

(** ** Elements kept by the string operations *)

Lemma lstrip_elem (s : pystr) (c : N) : c ∈ lstrip s -> c ∈ s.
Proof.
  induction s as [|x s IH]; simpl; [easy|].
  destruct (isspace x); [|easy].
  intros H. right. now apply IH.
Qed.

Lemma strip_elem (s : pystr) (c : N) : c ∈ strip s -> c ∈ s.
Proof.
  unfold strip, rstrip. intros H.
  apply list_elem_of_In, in_rev, list_elem_of_In in H.
  apply lstrip_elem in H.
  apply list_elem_of_In, in_rev, list_elem_of_In in H.
  now apply lstrip_elem.
Qed.

Lemma replace_chr_filter (c : N) (s : pystr) :
  replace_chr c [] s = filter (fun x => x <> c) s.
Proof.
  unfold replace_chr, chr_eqb.
  induction s as [|x s IH]; [reflexivity|].
  cbn [flat_map]. rewrite IH.
  destruct (N.eqb_spec x c) as [->|Hne].
  - symmetry. apply (filter_cons_False (fun y => y <> c)). tauto.
  - symmetry. now apply (filter_cons_True (fun y => y <> c)).
Qed.

Lemma header_text_no_hash (line : pystr) : hash ∉ header_text line.
Proof.
  unfold header_text. rewrite replace_chr_filter.
  intros H%strip_elem. apply list_elem_of_filter in H. tauto.
Qed.

(** ** The spacer *)

Lemma spacer_after_large (line : pystr) :
  spacer_after U line = Spacer 1 10 <->
  startswith (strip line) (u "#") = true \/ isupper U (strip line) = true.
Proof.
  unfold spacer_after.
  destruct (startswith (strip line) (u "#")), (isupper U (strip line));
    simpl; split; intros H; try tauto; try discriminate;
    destruct H; discriminate.
Qed.

(** On lines whose trimmed form has more than three characters the larger
    spacer goes with the two header roles, and only with them. *)
Lemma spacer_after_long_line (line : pystr) :
  3 < length (strip line) ->
  (spacer_after U line = Spacer 1 10 <->
   classify U line = Header \/ classify U line = UppercaseHeader).
Proof.
  intros Hlen. unfold spacer_after, classify.
  assert (Hne : str_truthy (strip line) = true)
    by (destruct (strip line); [simpl in Hlen; lia | reflexivity]).
  apply Nat.ltb_lt in Hlen. rewrite Hne, Hlen, andb_true_r.
  cbn [negb].
  destruct (startswith (strip line) (u "#")); cbn [orb]; [tauto|].
  destruct (isupper U (strip line)); [tauto|].
  split; [discriminate|].
  destruct (startswith (strip line) bullet_literal
            || startswith (strip line) (u "-")
            || startswith (strip line) (u "*")); simpl;
    [intros [?|?]; discriminate|].
  destruct (contains (u "signature") (str_lower U line)
            || contains (u "sign") (str_lower U line)
            || contains (u "date:") (str_lower U line));
    intros [?|?]; discriminate.
Qed.

(** ** The bullet rule *)

(** A line that reaches the bullet rule and starts with one of the three
    markers of the source is a bullet. *)
Lemma classify_bullet_markers (line : pystr) :
  str_truthy (strip line) = true ->
  startswith (strip line) (u "#") = false ->
  isupper U (strip line) && (3 <? length (strip line)) = false ->
  startswith (strip line) (u "-") = true
  \/ startswith (strip line) (u "*") = true
  \/ startswith (strip line) bullet_literal = true ->
  classify U line = Bullet
  /\ render_para U line
     = [Paragraph (strip line) bullet_style; spacer_after U line].
Proof.
  intros Hne Hhash Hup Hmark.
  assert (Hc : classify U line = Bullet).
  { unfold classify. rewrite Hne, Hhash, Hup.
    destruct Hmark as [->|[->| ->]];
      rewrite ?orb_true_r; reflexivity. }
  split; [exact Hc|].
  rewrite render_para_classify, Hc. reflexivity.
Qed.

(** ** Where the source and the specification agree on the header text *)

Lemma lstrip_split (s : pystr) : exists a, blank a /\ s = a ++ lstrip s.
Proof.
  induction s as [|c s (a & Ha & IH)].
  - now exists [].
  - cbn [lstrip]. destruct (isspace c) eqn:Hc.
    + exists (c :: a). split.
      * unfold blank. cbn [forallb]. now rewrite Hc.
      * cbn [app]. now rewrite <- IH.
    + now exists [].
Qed.

Lemma lstrip_blank_app (a s : pystr) : blank a -> lstrip (a ++ s) = lstrip s.
Proof.
  unfold blank. induction a as [|c a IH]; [reflexivity|].
  cbn [forallb app lstrip]. intros [Hc Ha]%andb_true_iff.
  rewrite Hc. now apply IH.
Qed.

Lemma blank_rev (a : pystr) : blank a -> blank (rev a).
Proof.
  unfold blank. rewrite !forallb_forall. intros H c Hc.
  apply H. now apply in_rev.
Qed.

Lemma rstrip_split (s : pystr) : exists b, blank b /\ s = rstrip s ++ b.
Proof.
  destruct (lstrip_split (rev s)) as (a & Ha & Hs).
  exists (rev a). split; [now apply blank_rev|].
  unfold rstrip. rewrite <- rev_app_distr, <- Hs. now rewrite rev_involutive.
Qed.

Lemma rstrip_app_blank (s b : pystr) : blank b -> rstrip (s ++ b) = rstrip s.
Proof.
  intros Hb. unfold rstrip. rewrite rev_app_distr.
  now rewrite lstrip_blank_app by now apply blank_rev.
Qed.

Lemma lstrip_blank (b : pystr) : blank b -> lstrip b = [].
Proof.
  intros Hb. rewrite <- (app_nil_r b). now rewrite lstrip_blank_app.
Qed.

Lemma lstrip_app (s t : pystr) :
  lstrip (s ++ t) = match lstrip s with [] => lstrip t | _ => lstrip s ++ t end.
Proof.
  induction s as [|c s IH]; [reflexivity|].
  cbn [app lstrip]. destruct (isspace c); [exact IH | reflexivity].
Qed.

(** Whitespace around a string does not change its trimmed form. *)
Lemma strip_blank_around (a s b : pystr) :
  blank a -> blank b -> strip (a ++ s ++ b) = strip s.
Proof.
  intros Ha Hb. unfold strip.
  rewrite (lstrip_blank_app a) by exact Ha.
  rewrite lstrip_app.
  destruct (lstrip s) as [|c r] eqn:Hs.
  - now rewrite (lstrip_blank b Hb).
  - now apply rstrip_app_blank.
Qed.

Lemma strip_split (s : pystr) :
  exists a b, blank a /\ blank b /\ s = a ++ strip s ++ b.
Proof.
  destruct (lstrip_split s) as (a & Ha & Hs).
  destruct (rstrip_split (lstrip s)) as (b & Hb & Hr).
  exists a, b. unfold strip. now rewrite <- Hr.
Qed.

Lemma filter_hash_blank (a : list N) :
  blank a -> filter (fun c => c <> hash) a = a.
Proof.
  unfold blank. induction a as [|c a IH]; [reflexivity|].
  cbn [forallb]. intros [Hc Ha]%andb_true_iff.
  rewrite filter_cons_True.
  - now rewrite IH.
  - intros ->. discriminate Hc.
Qed.

Lemma filter_hash_absent (s : list N) :
  hash ∉ s -> filter (fun c => c <> hash) s = s.
Proof.
  induction s as [|c s IH]; [reflexivity|].
  intros Hno. rewrite filter_cons_True.
  - rewrite IH; [reflexivity|]. intros H. apply Hno. now right.
  - intros ->. apply Hno. now left.
Qed.

Lemma filter_hash_leading (s : list N) :
  hash ∉ lstrip_hashes s ->
  filter (fun c => c <> hash) s = lstrip_hashes s.
Proof.
  induction s as [|c s IH]; [reflexivity|].
  cbn [lstrip_hashes]. unfold chr_eqb.
  destruct (N.eqb_spec c hash) as [->|Hne]; intros Hno.
  - rewrite filter_cons_False by tauto. now apply IH.
  - now apply filter_hash_absent.
Qed.

(** When no ['#'] follows the leading ones, the header text of the source
    is the header text of the specification. *)
Lemma header_text_agrees (line : list N) :
  hash ∉ lstrip_hashes (strip line) ->
  header_text line = spec_header_text line.
Proof.
  intros Hno. unfold header_text, spec_header_text.
  rewrite replace_chr_filter.
  destruct (strip_split line) as (a & b & Ha & Hb & Hline).
  rewrite Hline at 1.
  rewrite !filter_app, (filter_hash_blank a Ha), (filter_hash_blank b Hb).
  rewrite (filter_hash_leading _ Hno).
  now apply strip_blank_around.
Qed.

(** C1: a line whose trimmed form starts with ['#'] is laid out as a
    Header whatever else it contains: the uppercase, bullet and signature
    rules are not consulted, the paragraph carries the header style and
    the larger spacer follows. *)
Theorem hash_line_is_header (line : pystr) :
  startswith (strip line) (u "#") = true ->
  classify U line = Header
  /\ render_para U line
     = [Paragraph (header_text line) header_style; Spacer 1 10].
Proof.
  intros H. split; [now apply classify_hash|].
  rewrite render_para_classify, (classify_hash _ H).
  cbn [role_paragraph app]. now rewrite (spacer_after_hash _ H).
Qed.

(** C6 (amended): for a line whose trimmed form starts with ['#'], the
    header paragraph carries the line with every ['#'] removed, leading
    or not, and the surrounding whitespace stripped; no ['#'] is left in
    the rendered text. *)
Theorem header_text_drops_every_hash (line : pystr) :
  startswith (strip line) (u "#") = true ->
  render_para U line
  = [Paragraph (strip (filter (fun c => c <> hash) line)) header_style;
     Spacer 1 10]
  /\ hash ∉ strip (filter (fun c => c <> hash) line).
Proof.
  intros H.
  pose proof (header_text_no_hash line) as Hno.
  unfold header_text in Hno. rewrite replace_chr_filter in Hno.
  split; [|exact Hno].
  rewrite render_para_classify, (classify_hash _ H).
  cbn [role_paragraph app].
  now rewrite (spacer_after_hash _ H), replace_chr_filter.
Qed.

End RendererFacts.

(** * Properties of the generation call and of the workflow *)

Section WorkflowFacts.

Context (U : CaseTables) (env : Env).

(** ** Result dictionaries *)

Lemma success_result_success (filename : pystr) :
  success_result filename !! u "success" = Some (PyBool true).
Proof. unfold success_result. apply lookup_insert_eq. Qed.

Lemma success_result_url (filename : pystr) :
  success_result filename !! u "download_url"
  = Some (PyStr (u "/download/" ++ filename)).
Proof.
  unfold success_result.
  rewrite lookup_insert_ne by (vm_compute; discriminate).
  apply lookup_singleton_eq.
Qed.

(** ** One iteration of the inner loop *)

Lemma chat_loop_answer prompt max_retries attempt rest retry_delay w text :
  chat_completions_create env (chat_calls w) (chat_request prompt) = inr text ->
  chat_loop env prompt max_retries (attempt :: rest) retry_delay w
  = (inr (Some text), EvChat (chat_request prompt) :: w).
Proof.
  intros H. cbn [chat_loop].
  unfold bind, try_except, chat_create, ret. now rewrite H.
Qed.

Lemma chat_loop_retry prompt max_retries attempt rest retry_delay w e :
  chat_completions_create env (chat_calls w) (chat_request prompt) = inl e ->
  attempt < max_retries - 1 ->
  chat_loop env prompt max_retries (attempt :: rest) retry_delay w
  = chat_loop env prompt max_retries rest (retry_delay * 2)
      (EvSleep retry_delay :: chat_error_log attempt max_retries e
       :: EvChat (chat_request prompt) :: w).
Proof.
  intros H Hlt. cbn [chat_loop].
  unfold bind, try_except, chat_create, ret, logger, sleep, emit.
  rewrite H. apply Nat.ltb_lt in Hlt. now rewrite Hlt.
Qed.

Lemma chat_loop_give_up prompt max_retries attempt rest retry_delay w e :
  chat_completions_create env (chat_calls w) (chat_request prompt) = inl e ->
  ~ attempt < max_retries - 1 ->
  chat_loop env prompt max_retries (attempt :: rest) retry_delay w
  = (inl (Exception
            (u "Failed to generate consultation after "
             ++ str_of_nat max_retries ++ u " attempts: " ++ str_exn e)),
     chat_gave_up_log max_retries :: chat_error_log attempt max_retries e
     :: EvChat (chat_request prompt) :: w).
Proof.
  intros H Hlt. cbn [chat_loop].
  unfold bind, try_except, chat_create, ret, logger, sleep, emit, raise.
  rewrite H. apply Nat.ltb_nlt in Hlt. now rewrite Hlt.
Qed.

(** The inner loop of [generate_consultation] never leaves its range
    without a text or an exception. *)
Lemma chat_loop_bound prompt w w1 :
  chat_loop env prompt 3 (seq 0 3) 2 w <> (inr None, w1).
Proof.
  change (seq 0 3) with [0; 1; 2].
  destruct (chat_completions_create env (chat_calls w) (chat_request prompt))
    as [e0|t0] eqn:H0.
  2: { rewrite (chat_loop_answer _ _ _ _ _ _ _ H0). discriminate. }
  rewrite (chat_loop_retry _ _ _ _ _ _ _ H0) by (simpl; lia).
  match goal with |- chat_loop _ _ _ _ _ ?w' <> _ => set (wa := w') end.
  destruct (chat_completions_create env (chat_calls wa) (chat_request prompt))
    as [e1|t1] eqn:H1.
  2: { rewrite (chat_loop_answer _ _ _ _ _ _ _ H1). discriminate. }
  rewrite (chat_loop_retry _ _ _ _ _ _ _ H1) by (simpl; lia).
  match goal with |- chat_loop _ _ _ _ _ ?w' <> _ => set (wb := w') end.
  destruct (chat_completions_create env (chat_calls wb) (chat_request prompt))
    as [e2|t2] eqn:H2.
  2: { rewrite (chat_loop_answer _ _ _ _ _ _ _ H2). discriminate. }
  rewrite (chat_loop_give_up _ _ _ _ _ _ _ H2) by (simpl; lia).
  discriminate.
Qed.

(** ** The shape of a run of [generate_consultation] *)

Lemma generate_consultation_run (form_data : gmap pystr pystr) (w : World) :
  generate_consultation U env form_data w =
    match chat_loop env (prompt_of form_data) 3 (seq 0 3) 2 w with
    | (inl e, w1) => (inl (generation_error e), generation_error_log e :: w1)
    | (inr None, w1) =>
        let e := Exception (u "local variable 'document_text' referenced before assignment") in
        (inl (generation_error e), generation_error_log e :: w1)
    | (inr (Some text), w1) =>
        let filepath := run_filepath env form_data w1 in
        let content := run_content U env form_data text w1 in
        let w2 := EvRender filepath content :: before_render env form_data w1 in
        match doc_build env (render_calls w1) filepath content with
        | Some e => (inl (generation_error e), generation_error_log e :: w2)
        | None =>
            (inr (success_result (run_filename env form_data w1)),
             EvWrite filepath :: w2)
        end
    end.
Proof.
  unfold generate_consultation, try_except, bind.
  destruct (chat_loop env (prompt_of form_data) 3 (seq 0 3) 2 w)
    as [[e|[text|]] w1]; try reflexivity.
  unfold uuid4_hex8, emit, create_pdf.
  change (render_calls (EvMakedirs ?d :: EvUuid :: w1)) with (render_calls w1).
  fold (run_filename env form_data w1). fold (run_filepath env form_data w1).
  fold (run_content U env form_data text w1).
  destruct (doc_build env (render_calls w1) (run_filepath env form_data w1)
              (run_content U env form_data text w1)); reflexivity.
Qed.

(** The three iterations of the inner loop of [generate_consultation]. *)
Lemma chat_loop_exhausted prompt w e0 e1 e2 :
  let req := chat_request prompt in
  chat_completions_create env (chat_calls w) req = inl e0 ->
  chat_completions_create env (S (chat_calls w)) req = inl e1 ->
  chat_completions_create env (S (S (chat_calls w))) req = inl e2 ->
  chat_loop env prompt 3 (seq 0 3) 2 w
  = (inl (exhausted_error e2),
     chat_gave_up_log 3 :: chat_error_log 2 3 e2 :: EvChat req
     :: EvSleep 4 :: chat_error_log 1 3 e1 :: EvChat req
     :: EvSleep 2 :: chat_error_log 0 3 e0 :: EvChat req :: w).
Proof.
  intros req H0 H1 H2. change (seq 0 3) with [0; 1; 2].
  rewrite (chat_loop_retry _ _ _ _ _ _ _ H0) by (simpl; lia).
  rewrite (chat_loop_retry _ _ _ _ _ _ e1) by (try exact H1; simpl; lia).
  rewrite (chat_loop_give_up _ _ _ _ _ _ e2) by (try exact H2; simpl; lia).
  reflexivity.
Qed.

Lemma chat_loop_third_answer prompt w e0 e1 text :
  let req := chat_request prompt in
  chat_completions_create env (chat_calls w) req = inl e0 ->
  chat_completions_create env (S (chat_calls w)) req = inl e1 ->
  chat_completions_create env (S (S (chat_calls w))) req = inr text ->
  chat_loop env prompt 3 (seq 0 3) 2 w
  = (inr (Some text),
     EvChat req
     :: EvSleep 4 :: chat_error_log 1 3 e1 :: EvChat req
     :: EvSleep 2 :: chat_error_log 0 3 e0 :: EvChat req :: w).
Proof.
  intros req H0 H1 H2. change (seq 0 3) with [0; 1; 2].
  rewrite (chat_loop_retry _ _ _ _ _ _ _ H0) by (simpl; lia).
  rewrite (chat_loop_retry _ _ _ _ _ _ e1) by (try exact H1; simpl; lia).
  rewrite (chat_loop_answer _ _ _ _ _ _ text) by exact H2.
  reflexivity.
Qed.

(** ** One iteration of the workflow loop *)

Lemma attempts_loop_over_budget fd start limit max_retries attempt rest d w :
  over_budget (time_time env (clock_reads w)) start limit = true ->
  attempts_loop U env fd start limit max_retries (attempt :: rest) d w
  = (inr (Some processing_response), budget_log :: EvTime :: w).
Proof.
  intros H. cbn [attempts_loop].
  unfold bind at 1. unfold try_except. unfold bind at 1. unfold time_now.
  rewrite H. reflexivity.
Qed.

Lemma attempts_loop_returned fd start limit max_retries attempt rest d w r w' :
  over_budget (time_time env (clock_reads w)) start limit = false ->
  generate_consultation U env fd (EvTime :: w) = (inr r, w') ->
  truthy (r !! u "success") = true ->
  attempts_loop U env fd start limit max_retries (attempt :: rest) d w
  = (inr (Some (jsonify r)), w').
Proof.
  intros H Hgen Hok. cbn [attempts_loop].
  unfold bind at 1. unfold try_except. unfold bind at 1. unfold time_now.
  rewrite H. unfold bind at 1. rewrite Hgen, Hok. reflexivity.
Qed.

Lemma attempts_loop_raised_retry fd start limit max_retries attempt rest d w e w' :
  over_budget (time_time env (clock_reads w)) start limit = false ->
  generate_consultation U env fd (EvTime :: w) = (inl e, w') ->
  attempt < max_retries - 1 ->
  attempts_loop U env fd start limit max_retries (attempt :: rest) d w
  = attempts_loop U env fd start limit max_retries rest (d * 2)
      (attempt_retry_log attempt max_retries :: EvSleep d
       :: attempt_exception_log attempt max_retries e :: w').
Proof.
  intros H Hgen Hlt. cbn [attempts_loop].
  unfold bind at 1. unfold try_except. unfold bind at 1. unfold time_now.
  rewrite H. unfold bind at 1. rewrite Hgen.
  apply Nat.ltb_lt in Hlt.
  unfold bind, logger, sleep, emit, ret. now rewrite Hlt.
Qed.

Lemma attempts_loop_raised_last fd start limit max_retries attempt rest d w e w' :
  over_budget (time_time env (clock_reads w)) start limit = false ->
  generate_consultation U env fd (EvTime :: w) = (inl e, w') ->
  ~ attempt < max_retries - 1 ->
  attempts_loop U env fd start limit max_retries (attempt :: rest) d w
  = (inr (Some (attempts_failed_response max_retries e)),
     attempt_exception_log attempt max_retries e :: w').
Proof.
  intros H Hgen Hlt. cbn [attempts_loop].
  unfold bind at 1. unfold try_except. unfold bind at 1. unfold time_now.
  rewrite H. unfold bind at 1. rewrite Hgen.
  apply Nat.ltb_nlt in Hlt.
  unfold bind, logger, sleep, emit, ret. now rewrite Hlt.
Qed.

(** The handler returns what its loop returns once the payment record has
    been decoded. *)
Lemma payment_success_run sid w fd r w' :
  session_form_data env (count is_retrieve w) sid = inr fd ->
  run_attempts U env fd (EvRetrieve sid :: w) = (inr r, w') ->
  payment_success U env sid w = (inr r, w').
Proof.
  intros Hfd Hrun. unfold payment_success, try_except2.
  unfold bind at 1. unfold retrieve_form_data. now rewrite Hfd, Hrun.
Qed.

(** ** Runs of [generate_consultation] *)

Lemma generate_consultation_exhausted fd w e0 e1 e2 :
  let req := chat_request (prompt_of fd) in
  chat_completions_create env (chat_calls w) req = inl e0 ->
  chat_completions_create env (S (chat_calls w)) req = inl e1 ->
  chat_completions_create env (S (S (chat_calls w))) req = inl e2 ->
  generate_consultation U env fd w
  = (inl (generation_error (exhausted_error e2)),
     generation_error_log (exhausted_error e2)
     :: chat_gave_up_log 3 :: chat_error_log 2 3 e2 :: EvChat req
     :: EvSleep 4 :: chat_error_log 1 3 e1 :: EvChat req
     :: EvSleep 2 :: chat_error_log 0 3 e0 :: EvChat req :: w).
Proof.
  intros req H0 H1 H2.
  rewrite generate_consultation_run.
  now rewrite (chat_loop_exhausted _ _ _ _ _ H0 H1 H2).
Qed.

Lemma generate_consultation_render_failure fd w text w1 e :
  chat_loop env (prompt_of fd) 3 (seq 0 3) 2 w = (inr (Some text), w1) ->
  doc_build env (render_calls w1) (run_filepath env fd w1)
            (run_content U env fd text w1) = Some e ->
  generate_consultation U env fd w
  = (inl (generation_error e),
     generation_error_log e
     :: EvRender (run_filepath env fd w1) (run_content U env fd text w1)
     :: before_render env fd w1).
Proof.
  intros Hloop Hbuild.
  rewrite generate_consultation_run, Hloop. cbv zeta. now rewrite Hbuild.
Qed.

Lemma generate_consultation_success fd w text w1 :
  chat_loop env (prompt_of fd) 3 (seq 0 3) 2 w = (inr (Some text), w1) ->
  doc_build env (render_calls w1) (run_filepath env fd w1)
            (run_content U env fd text w1) = None ->
  generate_consultation U env fd w
  = (inr (success_result (run_filename env fd w1)),
     EvWrite (run_filepath env fd w1)
     :: EvRender (run_filepath env fd w1) (run_content U env fd text w1)
     :: before_render env fd w1).
Proof.
  intros Hloop Hbuild.
  rewrite generate_consultation_run, Hloop. cbv zeta. now rewrite Hbuild.
Qed.

(** Every returned result is a success dictionary. *)
Lemma returned_result_is_success
    (fd : gmap pystr pystr) (w : World) :
  (exists e w', generate_consultation U env fd w = (inl e, w'))
  \/ (exists filename w',
        generate_consultation U env fd w = (inr (success_result filename), w')
        /\ success_result filename !! u "success" = Some (PyBool true)).
Proof.
  rewrite generate_consultation_run.
  destruct (chat_loop env (prompt_of fd) 3 (seq 0 3) 2 w)
    as [[e|[text|]] w1]; [left; eauto | | left; eauto].
  cbv zeta.
  destruct (doc_build env (render_calls w1) (run_filepath env fd w1)
              (run_content U env fd text w1)); [left; eauto|].
  right. exists (run_filename env fd w1). eexists.
  split; [reflexivity|]. apply success_result_success.
Qed.

(** C4 (amended): when the text-generation service fails on two calls and
    answers the third, and the typesetter accepts the document,
    [generate_consultation] returns the success dictionary with its
    download reference after three service calls, the two back-off sleeps
    of 2 and 4 seconds and exactly one renderer run, which writes the one
    artifact. *)
Theorem two_failures_then_success
    (fd : gmap pystr pystr) (w : World) (e0 e1 : exn) (text : pystr) :
  let req := chat_request (prompt_of fd) in
  chat_completions_create env (chat_calls w) req = inl e0 ->
  chat_completions_create env (S (chat_calls w)) req = inl e1 ->
  chat_completions_create env (S (S (chat_calls w))) req = inr text ->
  (forall path content, doc_build env (render_calls w) path content = None) ->
  exists filename w',
    generate_consultation U env fd w = (inr (success_result filename), w')
    /\ success_result filename !! u "success" = Some (PyBool true)
    /\ success_result filename !! u "download_url"
       = Some (PyStr (u "/download/" ++ filename))
    /\ chat_calls w' = 3 + chat_calls w
    /\ render_calls w' = 1 + render_calls w
    /\ files w' = path_join (DOWNLOAD_FOLDER env) filename :: files w
    /\ sleeps w' = 4%Z :: 2%Z :: sleeps w.
Proof.
  intros req H0 H1 H2 Hbuild.
  pose proof (chat_loop_third_answer _ _ _ _ _ H0 H1 H2) as Hloop.
  match type of Hloop with _ = (_, ?x) => set (w1 := x) in * end.
  exists (run_filename env fd w1). eexists.
  split.
  { apply (generate_consultation_success fd w text w1 Hloop).
    change (render_calls w1) with (render_calls w). apply Hbuild. }
  split; [apply success_result_success|].
  split; [apply success_result_url|].
  repeat split.
Qed.

(** C9: [generate_consultation] either raises or returns the success
    dictionary, whose [success] field is [True] and which carries a
    [download_url]; the test [document_result.get('success')] of the
    workflow therefore never fails on a returned result. *)
Theorem generate_consultation_raises_or_succeeds
    (fd : gmap pystr pystr) (w : World) :
  (exists e w', generate_consultation U env fd w = (inl e, w'))
  \/ (exists filename w',
        generate_consultation U env fd w = (inr (success_result filename), w')
        /\ success_result filename !! u "success" = Some (PyBool true)
        /\ success_result filename !! u "download_url"
           = Some (PyStr (u "/download/" ++ filename))
        /\ truthy (success_result filename !! u "success") = true).
Proof.
  rewrite generate_consultation_run.
  destruct (chat_loop env (prompt_of fd) 3 (seq 0 3) 2 w)
    as [[e|[text|]] w1]; [left; eauto | | left; eauto].
  cbv zeta.
  destruct (doc_build env (render_calls w1) (run_filepath env fd w1)
              (run_content U env fd text w1)); [left; eauto|].
  right. exists (run_filename env fd w1). eexists.
  split; [reflexivity|].
  rewrite success_result_success, success_result_url. auto.
Qed.

(** The guard of the workflow on a returned result. *)
Lemma returned_result_is_truthy fd w r w' :
  generate_consultation U env fd w = (inr r, w') ->
  truthy (r !! u "success") = true.
Proof.
  intros H.
  destruct (returned_result_is_success fd w) as [Hl|Hr].
  - destruct Hl as (e & w2 & He). congruence.
  - destruct Hr as (filename & w2 & He & Hs). rewrite He in H.
    injection H as <- _. now rewrite Hs.
Qed.

(** An iteration of the workflow loop, written without the branch for a
    returned result that is not a success: that branch is never entered. *)
Lemma attempts_loop_step fd start limit max_retries attempt rest d w :
  attempts_loop U env fd start limit max_retries (attempt :: rest) d w
  = if over_budget (time_time env (clock_reads w)) start limit then
      (inr (Some processing_response), budget_log :: EvTime :: w)
    else
      match generate_consultation U env fd (EvTime :: w) with
      | (inr r, w') => (inr (Some (jsonify r)), w')
      | (inl e, w') =>
          if attempt <? max_retries - 1 then
            attempts_loop U env fd start limit max_retries rest (d * 2)
              (attempt_retry_log attempt max_retries :: EvSleep d
               :: attempt_exception_log attempt max_retries e :: w')
          else
            (inr (Some (attempts_failed_response max_retries e)),
             attempt_exception_log attempt max_retries e :: w')
      end.
Proof.
  destruct (over_budget (time_time env (clock_reads w)) start limit) eqn:Hb.
  { now apply attempts_loop_over_budget. }
  destruct (generate_consultation U env fd (EvTime :: w)) as [[e|r] w'] eqn:Hgen.
  - destruct (attempt <? max_retries - 1) eqn:Hlt.
    + apply Nat.ltb_lt in Hlt. now apply attempts_loop_raised_retry.
    + apply Nat.ltb_nlt in Hlt. now apply attempts_loop_raised_last.
  - apply attempts_loop_returned; [exact Hb | exact Hgen |].
    exact (returned_result_is_truthy _ _ _ _ Hgen).
Qed.

(** C10: a form without [consultancy_type] does not make the generation
    fail. Once the service has delivered a text and the typesetter accepts
    the document, the call succeeds; the prompt names the default label
    [AI Consultancy], the document is titled with the default label
    [AI Consultancy Report], and the artifact is named [None_], the first
    eight characters of the uuid, [.pdf]. *)
Theorem missing_consultancy_type
    (fd : gmap pystr pystr) (w w1 : World) (text : pystr) :
  fd !! u "consultancy_type" = None ->
  chat_loop env (prompt_of fd) 3 (seq 0 3) 2 w = (inr (Some text), w1) ->
  (forall path content, doc_build env (render_calls w1) path content = None) ->
  let unique_id := take 8 (uuid4_hex env (count is_uuid w1)) in
  let filename := u "None_" ++ unique_id ++ u ".pdf" in
  let filepath := path_join (DOWNLOAD_FOLDER env) filename in
  let content :=
    pdf_content U text (fd !! u "business_name") (u "AI Consultancy Report")
                (strftime_now env (render_calls w1)) in
  startswith (prompt_of fd)
    (u "Generate a comprehensive AI Consultancy report for ") = true
  /\ generate_consultation U env fd w
     = (inr (success_result filename),
        EvWrite filepath :: EvRender filepath content
        :: EvMakedirs (dirname filepath) :: EvUuid :: w1)
  /\ success_result filename !! u "download_url"
     = Some (PyStr (u "/download/None_" ++ unique_id ++ u ".pdf"))
  /\ head content
     = Some (Paragraph (str_upper U (u "AI Consultancy Report")) title_style)
  /\ length unique_id
     = 8 `min` length (uuid4_hex env (count is_uuid w1)).
Proof.
  intros Hnone Hloop Hbuild unique_id filename filepath content.
  split.
  { unfold prompt_of. rewrite Hnone. reflexivity. }
  split.
  { rewrite (generate_consultation_success fd w text w1 Hloop (Hbuild _ _)).
    unfold run_filepath, run_filename, run_content, before_render,
      run_filepath, run_filename.
    rewrite Hnone. reflexivity. }
  split; [rewrite success_result_url; reflexivity|].
  split; [reflexivity|].
  apply length_take.
Qed.


(** An iteration of the loop whose budget test fires returns the
    still-processing response at once. *)
Lemma attempts_loop_over_budget_response
    (fd : gmap pystr pystr) (start : float) (attempt : nat) (rest : list nat)
    (d : Z) (w : World) :
  over_budget (time_time env (clock_reads w)) start budget = true ->
  exists w',
    attempts_loop U env fd start budget 2 (attempt :: rest) d w
    = (inr (Some processing_response), w')
    /\ status processing_response = 202%Z
    /\ body processing_response !! u "status" = Some (PyStr (u "processing"))
    /\ body processing_response !! u "message"
       = Some (PyStr (u "Your consultation report is still being generated. Please wait a moment and try again."))
    /\ chat_calls w' = chat_calls w
    /\ render_calls w' = render_calls w
    /\ files w' = files w.
Proof.
  intros Hover. eexists. split.
  { apply attempts_loop_over_budget. exact Hover. }
  split; [reflexivity|].
  split; [apply lookup_insert_eq|].
  split.
  { unfold processing_response, jsonify_status, body.
    rewrite lookup_insert_ne by (vm_compute; discriminate).
    apply lookup_singleton_eq. }
  repeat split.
Qed.

(** The same at the level of the route, for the first attempt. *)
Lemma payment_success_over_budget_at_start sid fd w :
  session_form_data env (count is_retrieve w) sid = inr fd ->
  over_budget (time_time env (1 + clock_reads w))
              (time_time env (clock_reads w)) budget = true ->
  payment_success U env sid w
  = (inr (Some processing_response),
     budget_log :: EvTime :: EvTime :: EvRetrieve sid :: w).
Proof.
  intros Hfd Hover.
  apply (payment_success_run sid w fd _ _ Hfd).
  unfold run_attempts. unfold bind at 1. unfold time_now at 1.
  cbv zeta. change (seq 0 2) with [0; 1].
  apply attempts_loop_over_budget. exact Hover.
Qed.

(** The same before the second attempt, after a first attempt that raised. *)
Lemma payment_success_over_budget_at_retry sid fd w e w1 :
  session_form_data env (count is_retrieve w) sid = inr fd ->
  over_budget (time_time env (1 + clock_reads w))
              (time_time env (clock_reads w)) budget = false ->
  generate_consultation U env fd (EvTime :: EvTime :: EvRetrieve sid :: w)
  = (inl e, w1) ->
  over_budget (time_time env (clock_reads w1))
              (time_time env (clock_reads w)) budget = true ->
  payment_success U env sid w
  = (inr (Some processing_response),
     budget_log :: EvTime :: attempt_retry_log 0 2 :: EvSleep 1
     :: attempt_exception_log 0 2 e :: w1).
Proof.
  intros Hfd Hb1 Hgen Hb2.
  apply (payment_success_run sid w fd _ _ Hfd).
  unfold run_attempts. unfold bind at 1. unfold time_now at 1.
  cbv zeta. change (seq 0 2) with [0; 1].
  etransitivity.
  { apply (attempts_loop_raised_retry fd (time_time env (clock_reads w))
             budget 2 0 [1] 1 (EvTime :: EvRetrieve sid :: w) e w1
             Hb1 Hgen). simpl; lia. }
  apply attempts_loop_over_budget. exact Hb2.
Qed.

(** C5: [payment_success] tests, before each of its two outer attempts,
    whether the double [time.time() - start_time] exceeds the budget of 25
    seconds. When the test fires before the first attempt, or before the
    second attempt after a first attempt that raised, the route answers
    the still-processing response (status 202 with the retry-later
    message) at once: that attempt makes no call of the text-generation
    service and no renderer run, and writes no file. *)
Theorem over_budget_returns_processing
    (sid : option pystr) (fd : gmap pystr pystr) (w : World) :
  session_form_data env (count is_retrieve w) sid = inr fd ->
  let start_time := time_time env (clock_reads w) in
  let w0 := EvTime :: EvRetrieve sid :: w in
  (over_budget (time_time env (1 + clock_reads w)) start_time budget = true ->
   exists w',
     payment_success U env sid w = (inr (Some processing_response), w')
     /\ chat_calls w' = chat_calls w
     /\ render_calls w' = render_calls w
     /\ files w' = files w)
  /\ (forall e w1,
        over_budget (time_time env (1 + clock_reads w)) start_time budget
        = false ->
        generate_consultation U env fd (EvTime :: w0) = (inl e, w1) ->
        over_budget (time_time env (clock_reads w1)) start_time budget
        = true ->
        exists w',
          payment_success U env sid w = (inr (Some processing_response), w')
          /\ chat_calls w' = chat_calls w1
          /\ render_calls w' = render_calls w1
          /\ files w' = files w1)
  /\ status processing_response = 202%Z
  /\ body processing_response !! u "status" = Some (PyStr (u "processing"))
  /\ body processing_response !! u "message"
     = Some (PyStr (u "Your consultation report is still being generated. Please wait a moment and try again.")).
Proof.
  intros Hfd start_time w0. split; [|split].
  - intros Hover. eexists. split.
    + exact (payment_success_over_budget_at_start sid fd w Hfd Hover).
    + repeat split.
  - intros e w1 Hb1 Hgen Hb2. eexists. split.
    + exact (payment_success_over_budget_at_retry sid fd w e w1
               Hfd Hb1 Hgen Hb2).
    + repeat split.
  - split; [reflexivity|]. split; [apply lookup_insert_eq|].
    unfold processing_response, jsonify_status, body.
    rewrite lookup_insert_ne by (vm_compute; discriminate).
    apply lookup_singleton_eq.
Qed.


(** On the direct route a renderer failure is answered with 500 without
    any retry. *)
Lemma report_route_render_failure form w w1 text e :
  str_eqb (str_lower U (default (u "false") (getenv_BYPASS_PAYMENT env)))
          (u "true") = true ->
  chat_loop env (prompt_of form) 3 (seq 0 3) 2 w = (inr (Some text), w1) ->
  (forall path content,
     doc_build env (render_calls w1) path content = Some e) ->
  handle_report_generation U env form w
  = (inr (error_response
            (u "Failed to generate report: " ++ str_exn (generation_error e))
            500),
     EvLog LvlError
       (u "Error generating report: " ++ str_exn (generation_error e))
     :: generation_error_log e
     :: EvRender (run_filepath env form w1) (run_content U env form text w1)
     :: before_render env form w1).
Proof.
  intros Hbypass Hloop Hbuild.
  unfold handle_report_generation, try_except. rewrite Hbypass.
  unfold bind at 1.
  now rewrite (generate_consultation_render_failure form w text w1 e Hloop
                 (Hbuild _ _)).
Qed.

End WorkflowFacts.

(** * Concrete runs *)

(** The examples of the specification, on the Basic Latin tables. *)
Example classify_examples :
  classify basic_latin (u "   ") = Blank
  /\ classify basic_latin (u "# Signature") = Header
  /\ classify basic_latin (u "AI STRATEGY") = UppercaseHeader
  /\ classify basic_latin (u "ai strategy") = Body
  /\ classify basic_latin (u "- Adopt AI now") = Bullet
  /\ classify basic_latin (u "* Adopt AI now") = Bullet
  /\ classify basic_latin (u "Please sign and date below") = Signature.
Proof. repeat split. Qed.

Lemma hash_line_is_header_witness :
  startswith (strip (u "  # SIGNATURE - date: ")) (u "#") = true
  /\ classify basic_latin (u "  # SIGNATURE - date: ") = Header
  /\ render_para basic_latin (u "  # SIGNATURE - date: ")
     = [Paragraph (u "SIGNATURE - date:") header_style; Spacer 1 10].
Proof.
  split; [reflexivity|].
  apply (hash_line_is_header basic_latin (u "  # SIGNATURE - date: ")).
  reflexivity.
Defined.

(** C6 (counterexample): in [# C# guide] the second ['#'] is not leading,
    yet the header paragraph reads [C guide]. *)
Lemma later_hash_is_removed_counterexample :
  startswith (strip (u "# C# guide")) (u "#") = true
  /\ spec_header_text (u "# C# guide") = u "C# guide"
  /\ render_para basic_latin (u "# C# guide")
     = [Paragraph (u "C guide") header_style; Spacer 1 10]
  /\ header_text (u "# C# guide") <> spec_header_text (u "# C# guide").
Proof.
  split; [reflexivity|]. split; [reflexivity|]. split; [reflexivity|].
  vm_compute. discriminate.
Qed.

Lemma header_text_drops_every_hash_witness :
  render_para basic_latin (u "# C# guide")
  = [Paragraph (strip (filter (fun c => c <> hash) (u "# C# guide")))
       header_style; Spacer 1 10]
  /\ hash ∉ strip (filter (fun c => c <> hash) (u "# C# guide")).
Proof.
  apply (header_text_drops_every_hash basic_latin (u "# C# guide")).
  reflexivity.
Defined.

(** C7 (failing input): the line [AI] is uppercase but has two characters;
    it is laid out as a Body paragraph, and the larger spacer follows it
    all the same. *)
Theorem short_uppercase_line_gets_large_spacer :
  classify basic_latin (u "AI") = Body
  /\ render_para basic_latin (u "AI")
     = [Paragraph (u "AI") normal_style; Spacer 1 10].
Proof. split; reflexivity. Qed.

(** C8 (failing input): a line that starts with the bullet glyph U+2022
    reaches the bullet rule, is not matched by it and is laid out as a
    Body paragraph; the literal tested by the source is the three
    characters U+00E2 U+20AC U+00A2. *)
Theorem bullet_glyph_line_is_body :
  let line := bullet_glyph :: u " Adopt AI now" in
  startswith (strip line) [bullet_glyph] = true
  /\ startswith (strip line) bullet_literal = false
  /\ classify basic_latin line = Body
  /\ render_para basic_latin line
     = [Paragraph line normal_style; Spacer 1 6].
Proof. repeat split. Qed.

Lemma two_failures_then_success_witness :
  exists filename w',
    generate_consultation basic_latin env_two_failures acme_form []
    = (inr (success_result filename), w')
    /\ success_result filename !! u "download_url"
       = Some (PyStr (u "/download/" ++ filename))
    /\ chat_calls w' = 3
    /\ render_calls w' = 1.
Proof.
  destruct (two_failures_then_success basic_latin env_two_failures acme_form []
              (Exception (u "timeout")) (Exception (u "timeout"))
              sample_report)
    as (filename & w' & Hrun & _ & Hurl & Hchat & Hrender & _);
    try reflexivity.
  exists filename, w'. repeat split; assumption.
Defined.

Lemma missing_consultancy_type_witness :
  generate_consultation basic_latin env_no_type ∅ []
  = (inr (success_result (u "None_01234567.pdf")),
     [ EvWrite (u "/app/static/downloads/None_01234567.pdf");
       EvRender (u "/app/static/downloads/None_01234567.pdf")
         (pdf_content basic_latin sample_report None
            (u "AI Consultancy Report") (u "January 01, 2025"));
       EvMakedirs (u "/app/static/downloads");
       EvUuid;
       EvChat (chat_request (prompt_of ∅)) ]).
Proof.
  destruct (missing_consultancy_type basic_latin env_no_type ∅ []
              [EvChat (chat_request (prompt_of ∅))] sample_report)
    as (_ & Hrun & _); [reflexivity.. | exact Hrun].
Defined.


Lemma over_budget_returns_processing_witness :
  payment_success basic_latin env_slow_start None []
  = (inr (Some processing_response),
     [budget_log; EvTime; EvTime; EvRetrieve None])
  /\ exists w',
       payment_success basic_latin env_slow_retry None []
       = (inr (Some processing_response), w')
       /\ chat_calls w' = 3
       /\ render_calls w' = 0.
Proof.
  split.
  - destruct (over_budget_returns_processing basic_latin env_slow_start None
                acme_form [] eq_refl) as [Hfirst _].
    destruct (Hfirst eq_refl) as (w' & Hrun & _).
    rewrite Hrun. vm_compute in Hrun. now injection Hrun as <-.
  - destruct (generate_consultation basic_latin env_slow_retry acme_form
                [EvTime; EvTime; EvRetrieve None]) as [r w1] eqn:Hgen.
    assert (Hshape : exists e, r = inl e /\ chat_calls w1 = 3
                               /\ render_calls w1 = 0
                               /\ clock_reads w1 = 2).
    { vm_compute in Hgen. injection Hgen as <- <-.
      eexists. repeat split. }
    destruct Hshape as (e & -> & Hchat & Hrender & Hclock).
    destruct (over_budget_returns_processing basic_latin env_slow_retry None
                acme_form [] eq_refl) as (_ & Hsecond & _).
    destruct (Hsecond e w1 eq_refl Hgen) as (w' & Hrun & Hc & Hr & _).
    { rewrite Hclock. reflexivity. }
    exists w'. rewrite Hc, Hr. auto.
Defined.

(** The budget test follows the arithmetic of doubles: between the
    readings 0.1 and 25.1 the rounded difference is 25, which does not
    exceed the budget, while between 0.1 and 25.2 it does. *)
Example over_budget_rounds :
  over_budget 0x1.919999999999ap+4 0x1.999999999999ap-4 budget = false
  /\ over_budget 0x1.9333333333333p+4 0x1.999999999999ap-4 budget = true.
Proof. split; reflexivity. Qed.

(** C4 (counterexample): the service fails twice and answers the third
    call, but the typesetter rejects the document: the call raises after
    its three calls and its one renderer run, and returns no success. *)
Lemma two_failures_then_rejected_counterexample :
  chat_completions_create env_two_failures_rejected 0
    (chat_request (prompt_of acme_form)) = inl (Exception (u "timeout"))
  /\ chat_completions_create env_two_failures_rejected 1
       (chat_request (prompt_of acme_form)) = inl (Exception (u "timeout"))
  /\ chat_completions_create env_two_failures_rejected 2
       (chat_request (prompt_of acme_form)) = inr sample_report
  /\ exists w',
       generate_consultation basic_latin env_two_failures_rejected acme_form []
       = (inl (Exception
                 (u "Failed to generate consultation: paraparser: syntax error")),
          w')
       /\ chat_calls w' = 3
       /\ render_calls w' = 1
       /\ files w' = [].
Proof.
  do 3 (split; [reflexivity|]).
  eexists. split; [vm_compute; reflexivity|].
  repeat split.
Qed.

(** The route returns 202 when thirty seconds pass before its first
    attempt. *)
Example payment_success_slow_start :
  payment_success basic_latin env_slow_start None []
  = (inr (Some processing_response),
     [budget_log; EvTime; EvTime; EvRetrieve None]).
Proof. vm_compute. reflexivity. Qed.



(** * Further properties of the line layout *)

Section LayoutFacts.

Context (U : CaseTables).

Lemma blank_app (a b : list N) : blank a -> blank b -> blank (a ++ b).
Proof. unfold blank. rewrite forallb_app. now intros -> ->. Qed.

Lemma strip_nil_iff (s : list N) : strip s = [] <-> blank s.
Proof.
  split.
  - intros H. destruct (strip_split s) as (a & b & Ha & Hb & Hs).
    rewrite H in Hs. rewrite Hs. now apply blank_app.
  - intros H. unfold strip. now rewrite (lstrip_blank s H).
Qed.

Lemma nonblank_false_iff (line : list N) : nonblank line = false <-> blank line.
Proof.
  unfold nonblank. rewrite <- strip_nil_iff.
  destruct (strip line); split; intros H; try reflexivity; discriminate.
Qed.

(** X1: a line adds nothing to the document, neither paragraph nor
    spacer, exactly when it is empty or made of whitespace only. *)
Theorem render_para_nil_iff (line : list N) :
  render_para U line = [] <-> blank line.
Proof.
  rewrite <- nonblank_false_iff. unfold render_para, nonblank.
  destruct (str_truthy (strip line)); [|tauto].
  split; [|discriminate].
  intros [_ H]%app_eq_nil.
  destruct (startswith (strip line) (u "#") || isupper U (strip line));
    discriminate.
Qed.

Lemma render_para_length (line : list N) :
  length (render_para U line) = if nonblank line then 2 else 0.
Proof.
  unfold render_para, nonblank.
  destruct (str_truthy (strip line)); [|reflexivity].
  rewrite length_app.
  destruct (startswith (strip line) (u "#")); [reflexivity|].
  destruct (isupper U (strip line) && (3 <? length (strip line)));
    [destruct (isupper U (strip line)); reflexivity|].
  destruct (startswith (strip line) bullet_literal
            || startswith (strip line) (u "-")
            || startswith (strip line) (u "*"));
    [destruct (isupper U (strip line)); reflexivity|].
  destruct (contains (u "signature") (str_lower U line)
            || contains (u "sign") (str_lower U line)
            || contains (u "date:") (str_lower U line));
    destruct (isupper U (strip line)); reflexivity.
Qed.

Lemma flat_map_render_length (lines : list (list N)) :
  length (flat_map (render_para U) lines)
  = 2 * length (List.filter nonblank lines).
Proof.
  induction lines as [|l lines IH]; [reflexivity|].
  cbn [flat_map List.filter]. rewrite length_app, render_para_length, IH.
  destruct (nonblank l); cbn [length]; lia.
Qed.

(** X2: the document handed to the typesetter has the five flowables of
    the title block followed by exactly two flowables, a paragraph and a
    spacer, for every non-blank line of the text. *)
Theorem pdf_content_length (text : list N) (business_name : option (list N))
                           (document_type date : list N) :
  length (pdf_content U text business_name document_type date)
  = 5 + 2 * length (List.filter nonblank (split_chr 10 text)).
Proof.
  unfold pdf_content. rewrite length_app, flat_map_render_length.
  reflexivity.
Qed.

(** ** Trimmed paragraph texts *)

Lemma lstrip_idem (s : list N) : lstrip (lstrip s) = lstrip s.
Proof.
  induction s as [|c s IH]; [reflexivity|].
  cbn [lstrip]. destruct (isspace c) eqn:Hc; [exact IH|].
  cbn [lstrip]. now rewrite Hc.
Qed.

Lemma rstrip_idem (s : list N) : rstrip (rstrip s) = rstrip s.
Proof. unfold rstrip. now rewrite rev_involutive, lstrip_idem. Qed.

Lemma lstrip_fixed (s : list N) :
  lstrip s = s <-> match s with [] => True | c :: _ => isspace c = false end.
Proof.
  destruct s as [|c s]; [easy|].
  cbn [lstrip]. destruct (isspace c) eqn:Hc; split; try easy.
  intros H. destruct (lstrip_split s) as (a & Ha & Hs).
  assert (Hlen : length (lstrip s) <= length s).
  { rewrite Hs at 2. rewrite length_app. lia. }
  rewrite H in Hlen. cbn [length] in Hlen. lia.
Qed.

Lemma lstrip_rstrip_fixed (s : list N) :
  lstrip s = s -> lstrip (rstrip s) = rstrip s.
Proof.
  intros Hs. apply lstrip_fixed.
  destruct (rstrip_split s) as (b & Hb & Hsb).
  destruct (rstrip s) as [|c r] eqn:Hr; [exact I|].
  apply lstrip_fixed in Hs. rewrite Hsb in Hs. exact Hs.
Qed.

Lemma strip_fixed (s : list N) :
  lstrip (strip s) = strip s /\ rstrip (strip s) = strip s.
Proof.
  unfold strip. split.
  - apply lstrip_rstrip_fixed, lstrip_idem.
  - apply rstrip_idem.
Qed.

(** X3: the text of a header, uppercase-header or bullet paragraph is
    trimmed, it neither starts nor ends with whitespace, whereas a
    signature or body paragraph carries the line as it stands in the
    text, with its surrounding whitespace. *)
Theorem paragraph_text_by_role (line : list N) :
  match classify U line with
  | Blank => render_para U line = []
  | Header | UppercaseHeader | Bullet =>
      exists t st,
        render_para U line = [Paragraph t st; spacer_after U line]
        /\ lstrip t = t /\ rstrip t = t
  | Signature | Body =>
      exists st, render_para U line = [Paragraph line st; spacer_after U line]
  end.
Proof.
  rewrite render_para_classify.
  destruct (classify U line); cbn [role_paragraph app]; eauto;
    eexists; eexists; (split; [reflexivity | apply strip_fixed]).
Qed.

Lemma hash_line_is_header_shape (line : list N) :
  startswith (strip line) (u "#") = true ->
  classify U line = Header
  /\ render_para U line
     = [Paragraph (header_text line) header_style; Spacer 1 10].
Proof.
  intros H. split; [now apply classify_hash|].
  rewrite render_para_classify, (classify_hash _ _ H).
  cbn [role_paragraph app]. now rewrite (spacer_after_hash _ _ H).
Qed.

(** ** Header lines without text *)

Lemma filter_hash_spaces (s : list N) :
  forallb hash_or_space s = true ->
  blank (filter (fun c => c <> hash) s).
Proof.
  unfold blank, hash_or_space, chr_eqb.
  induction s as [|c s IH]; [reflexivity|].
  cbn [forallb]. intros [Hc Hs]%andb_true_iff.
  destruct (N.eqb_spec c hash) as [->|Hne].
  - rewrite filter_cons_False by tauto. now apply IH.
  - rewrite filter_cons_True by exact Hne.
    cbn [forallb]. cbn [orb] in Hc. rewrite Hc. now apply IH.
Qed.

(** X4: a header line made of ['#'] characters and whitespace only still
    produces a header paragraph, with empty text, and the larger spacer. *)
Theorem hash_only_line_empty_header (line : list N) :
  startswith (strip line) (u "#") = true ->
  forallb hash_or_space line = true ->
  render_para U line = [Paragraph [] header_style; Spacer 1 10].
Proof.
  intros Hhash Hall.
  destruct (hash_line_is_header_shape line Hhash) as [_ ->].
  unfold header_text. rewrite replace_chr_filter.
  now rewrite (proj2 (strip_nil_iff _) (filter_hash_spaces _ Hall)).
Qed.

End LayoutFacts.

(** ** The signature rule *)




(** * Further properties of the generation call and of the workflow *)

Ltac measure :=
  unfold effects_within, total_sleep, chat_calls, render_calls, clock_reads,
    chat_error_log, chat_gave_up_log, generation_error_log,
    attempt_exception_log, attempt_retry_log, budget_log, before_render in *;
  cbn [count is_chat is_render is_time files sleeps fold_right length] in *;
  try lia.

Section RunFacts.

Context (U : CaseTables) (env : Env).

(** The four ways in which the inner loop of [generate_consultation]
    ends. *)
Lemma chat_loop_cases (prompt : list N) (w : World) :
  let req := chat_request prompt in
  let r := chat_loop env prompt 3 (seq 0 3) 2 w in
  (exists text, r = (inr (Some text), EvChat req :: w))
  \/ (exists text e0,
       r = (inr (Some text),
            EvChat req :: EvSleep 2 :: chat_error_log 0 3 e0
            :: EvChat req :: w))
  \/ (exists text e0 e1,
       r = (inr (Some text),
            EvChat req :: EvSleep 4 :: chat_error_log 1 3 e1 :: EvChat req
            :: EvSleep 2 :: chat_error_log 0 3 e0 :: EvChat req :: w))
  \/ (exists e0 e1 e2,
       r = (inl (exhausted_error e2),
            chat_gave_up_log 3 :: chat_error_log 2 3 e2 :: EvChat req
            :: EvSleep 4 :: chat_error_log 1 3 e1 :: EvChat req
            :: EvSleep 2 :: chat_error_log 0 3 e0 :: EvChat req :: w)).
Proof.
  intros req r. subst r. change (seq 0 3) with [0; 1; 2].
  destruct (chat_completions_create env (chat_calls w) req)
    as [e0|t0] eqn:H0.
  2: { left. exists t0. now apply chat_loop_answer. }
  rewrite (chat_loop_retry _ _ _ _ _ _ _ _ H0) by (simpl; lia).
  match goal with |- context [chat_loop _ _ _ _ _ ?x] => set (wa := x) end.
  destruct (chat_completions_create env (chat_calls wa) req)
    as [e1|t1] eqn:H1.
  2: { right. left. exists t1, e0. now apply chat_loop_answer. }
  rewrite (chat_loop_retry _ _ _ _ _ _ _ _ H1) by (simpl; lia).
  match goal with |- context [chat_loop _ _ _ _ _ ?x] => set (wb := x) end.
  destruct (chat_completions_create env (chat_calls wb) req)
    as [e2|t2] eqn:H2.
  2: { right. right. left. exists t2, e0, e1. now apply chat_loop_answer. }
  right. right. right. exists e0, e1, e2.
  now rewrite (chat_loop_give_up _ _ _ _ _ _ _ _ H2) by (simpl; lia).
Qed.

(** What the inner loop adds to a trace. *)
Lemma chat_loop_effects (prompt : list N) (w : World) :
  let out := chat_loop env prompt 3 (seq 0 3) 2 w in
  fst out <> inr None
  /\ files (snd out) = files w
  /\ render_calls (snd out) = render_calls w
  /\ clock_reads (snd out) = clock_reads w
  /\ count is_uuid (snd out) = count is_uuid w
  /\ ((chat_calls (snd out) = 1 + chat_calls w
       /\ sleeps (snd out) = sleeps w)
      \/ (chat_calls (snd out) = 2 + chat_calls w
          /\ sleeps (snd out) = 2%Z :: sleeps w)
      \/ (chat_calls (snd out) = 3 + chat_calls w
          /\ sleeps (snd out) = 4%Z :: 2%Z :: sleeps w)).
Proof.
  intros out. subst out.
  destruct (chat_loop_cases prompt w)
    as [(t & ->)|[(t & e0 & ->)|[(t & e0 & e1 & ->)|(e0 & e1 & e2 & ->)]]];
    cbn [fst snd]; (split; [discriminate|]); repeat split; auto.
Qed.

(** The three ways in which [generate_consultation] ends, after an inner
    loop that has left the world [w1]. *)
Lemma generate_consultation_shape (fd : gmap (list N) (list N)) (w : World) :
  exists w1,
    files w1 = files w
    /\ render_calls w1 = render_calls w
    /\ clock_reads w1 = clock_reads w
    /\ count is_uuid w1 = count is_uuid w
    /\ ((chat_calls w1 = 1 + chat_calls w /\ sleeps w1 = sleeps w)
        \/ (chat_calls w1 = 2 + chat_calls w
            /\ sleeps w1 = 2%Z :: sleeps w)
        \/ (chat_calls w1 = 3 + chat_calls w
            /\ sleeps w1 = 4%Z :: 2%Z :: sleeps w))
    /\ ((exists e,
           generate_consultation U env fd w
           = (inl (generation_error e), generation_error_log e :: w1))
        \/ (exists e text,
             generate_consultation U env fd w
             = (inl (generation_error e),
                generation_error_log e
                :: EvRender (run_filepath env fd w1)
                            (run_content U env fd text w1)
                :: before_render env fd w1))
        \/ (exists text,
             generate_consultation U env fd w
             = (inr (success_result (run_filename env fd w1)),
                EvWrite (run_filepath env fd w1)
                :: EvRender (run_filepath env fd w1)
                            (run_content U env fd text w1)
                :: before_render env fd w1))).
Proof.
  rewrite generate_consultation_run.
  pose proof (chat_loop_effects (prompt_of fd) w) as Heff.
  cbv zeta in Heff.
  destruct (chat_loop env (prompt_of fd) 3 (seq 0 3) 2 w) as [r w1].
  cbn [fst snd] in Heff.
  destruct Heff as (Hr & Hf & Hrc & Hcr & Hu & Hsched).
  exists w1. do 5 (split; [assumption|]).
  destruct r as [e|[text|]]; [left; eauto | | congruence].
  cbv zeta.
  destruct (doc_build env (render_calls w1) (run_filepath env fd w1)
              (run_content U env fd text w1)) as [e|];
    [right; left; eauto | right; right; eauto].
Qed.

Lemma run_filename_count (fd : gmap (list N) (list N)) (w w1 : World) :
  count is_uuid w1 = count is_uuid w ->
  run_filename env fd w1 = run_filename env fd w
  /\ run_filepath env fd w1 = run_filepath env fd w.
Proof. unfold run_filepath, run_filename. now intros ->. Qed.

(** What a call of [generate_consultation] adds to a trace. *)
Lemma generate_consultation_outcome (fd : gmap (list N) (list N)) (w : World) :
  exists r w',
    generate_consultation U env fd w = (r, w')
    /\ effects_within w w' 3 1 0 6
    /\ chat_calls w < chat_calls w'
    /\ match r with
       | inr d =>
           d = success_result (run_filename env fd w)
           /\ files w' = run_filepath env fd w :: files w
           /\ render_calls w' = 1 + render_calls w
       | inl _ => files w' = files w
       end.
Proof.
  destruct (generate_consultation_shape fd w)
    as (w1 & Hf & Hrc & Hcr & Hu & Hsched & Hout).
  destruct (run_filename_count fd w w1 Hu) as [Hname Hpath].
  destruct Hout as [(e & ->)|[(e & text & ->)|(text & ->)]];
    do 2 eexists; (split; [reflexivity|]);
    rewrite ?Hname, ?Hpath;
    destruct Hsched as [[Hc Hs]|[[Hc Hs]|[Hc Hs]]];
    measure; rewrite ?Hs, ?Hf; cbn [fold_right length];
    repeat split; try lia.
Qed.

(** X6: a call of [generate_consultation] that returns has run the
    renderer once and written exactly one artifact, at the download
    folder joined with the file name that its [download_url] carries; a
    call that raises has written none. *)
Theorem generation_artifact_invariant
    (fd : gmap (list N) (list N)) (w : World) :
  match generate_consultation U env fd w with
  | (inr d, w') =>
      d = success_result (run_filename env fd w)
      /\ d !! u "download_url"
         = Some (PyStr (u "/download/" ++ run_filename env fd w))
      /\ files w'
         = path_join (DOWNLOAD_FOLDER env) (run_filename env fd w) :: files w
      /\ render_calls w' = 1 + render_calls w
  | (inl _, w') =>
      files w' = files w /\ render_calls w' <= 1 + render_calls w
  end.
Proof.
  destruct (generate_consultation_outcome fd w)
    as (r & w' & -> & Heff & _ & Hr).
  destruct r as [e|d].
  - split; [exact Hr|]. unfold effects_within in Heff. lia.
  - destruct Hr as (-> & Hf & Hrc).
    split; [reflexivity|]. split; [apply success_result_url|].
    split; assumption.
Qed.

(** The order of the calls and sleeps of the inner loop, oldest first. *)
Lemma chat_loop_schedule (prompt : list N) (w : World) :
  exists steps,
    schedule (snd (chat_loop env prompt 3 (seq 0 3) 2 w))
    = rev steps ++ schedule w
    /\ (steps = [Call]
        \/ steps = [Call; Sleep 2; Call]
        \/ steps = [Call; Sleep 2; Call; Sleep 4; Call]).
Proof.
  destruct (chat_loop_cases prompt w)
    as [(t & ->)|[(t & e0 & ->)|[(t & e0 & e1 & ->)|(e0 & e1 & e2 & ->)]]];
    cbn [snd].
  - exists [Call]. split; [reflexivity | tauto].
  - exists [Call; Sleep 2; Call]. split; [reflexivity | tauto].
  - exists [Call; Sleep 2; Call; Sleep 4; Call]. split; [reflexivity | tauto].
  - exists [Call; Sleep 2; Call; Sleep 4; Call]. split; [reflexivity | tauto].
Qed.

(** X7: the back-off of [generate_consultation]. The calls of the
    text-generation service and the sleeps that one call of the function
    adds to the trace are, oldest first, either one call, or a call, a
    sleep of 2 seconds and a call, or a call, a sleep of 2 seconds, a
    call, a sleep of 4 seconds and a call: a sleep stands only between
    two calls, never after the last one. *)
Theorem generation_backoff_schedule
    (fd : gmap (list N) (list N)) (w : World) :
  exists steps,
    schedule (snd (generate_consultation U env fd w))
    = rev steps ++ schedule w
    /\ (steps = [Call]
        \/ steps = [Call; Sleep 2; Call]
        \/ steps = [Call; Sleep 2; Call; Sleep 4; Call]).
Proof.
  rewrite generate_consultation_run.
  destruct (chat_loop_schedule (prompt_of fd) w) as (steps & Hs & Hsteps).
  exists steps. split; [|exact Hsteps].
  destruct (chat_loop env (prompt_of fd) 3 (seq 0 3) 2 w) as [r w1].
  cbn [snd] in Hs.
  destruct r as [e|[text|]]; cbv zeta; [exact Hs | | exact Hs].
  destruct (doc_build env (render_calls w1) (run_filepath env fd w1)
              (run_content U env fd text w1)); exact Hs.
Qed.

(** ** The workflow as a whole *)

(** The three answers of the attempts of [payment_success] and what they
    add to a trace. *)
Lemma run_attempts_outcome (fd : gmap (list N) (list N)) (w : World) :
  exists resp w',
    run_attempts U env fd w = (inr (Some resp), w')
    /\ effects_within w w' 6 2 3 13
    /\ ((exists filename,
           resp = jsonify (success_result filename)
           /\ files w' = path_join (DOWNLOAD_FOLDER env) filename :: files w)
        \/ (resp = processing_response /\ files w' = files w)
        \/ (exists e,
             resp = attempts_failed_response 2 e /\ files w' = files w)).
Proof.
  unfold run_attempts. unfold bind at 1. unfold time_now at 1. cbv zeta.
  change (seq 0 2) with [0; 1].
  set (start := time_time env (clock_reads w)).
  set (w0 := EvTime :: w).
  rewrite attempts_loop_step.
  destruct (over_budget (time_time env (clock_reads w0)) start 25%float).
  { do 2 eexists. split; [reflexivity|]. subst w0.
    split; [measure | right; left; split; reflexivity]. }
  destruct (generate_consultation_outcome fd (EvTime :: w0))
    as (r & w1 & Hgen & Heff & _ & Hr).
  rewrite Hgen. destruct r as [e|d].
  2: { destruct Hr as (-> & Hf & _).
       do 2 eexists. split; [reflexivity|]. subst w0.
       split; [measure | left; eexists; split; [reflexivity | exact Hf]]. }
  change (0 <? 2 - 1) with true. cbv iota.
  set (w2 := attempt_retry_log 0 2 :: EvSleep 1
             :: attempt_exception_log 0 2 e :: w1).
  rewrite attempts_loop_step.
  destruct (over_budget (time_time env (clock_reads w2)) start 25%float).
  { do 2 eexists. split; [reflexivity|]. subst w2 w0.
    split; [measure | right; left; split; [reflexivity | exact Hr]]. }
  destruct (generate_consultation_outcome fd (EvTime :: w2))
    as (r' & w3 & Hgen' & Heff' & _ & Hr').
  rewrite Hgen'. destruct r' as [e'|d'].
  - change (1 <? 2 - 1) with false. cbv iota.
    do 2 eexists. split; [reflexivity|]. subst w2 w0.
    split; [measure|].
    right; right. eexists. split; [reflexivity|].
    unfold attempt_retry_log, attempt_exception_log in *.
    cbn [files] in *. congruence.
  - destruct Hr' as (-> & Hf' & _).
    do 2 eexists. split; [reflexivity|]. subst w2 w0.
    split; [measure|].
    left. eexists. split; [reflexivity|].
    unfold attempt_retry_log, attempt_exception_log in *.
    cbn [files] in *. now rewrite Hf', Hr.
Qed.

(** The answer of [payment_success] in every case. *)
Lemma payment_success_outcome (sid : option (list N)) (w : World) :
  exists resp w',
    payment_success U env sid w = (inr (Some resp), w')
    /\ effects_within w w' 6 2 3 13
    /\ ((exists filename,
           resp = jsonify (success_result filename)
           /\ files w' = path_join (DOWNLOAD_FOLDER env) filename :: files w)
        \/ (files w' = files w
            /\ (resp = processing_response
                \/ (exists e, resp = attempts_failed_response 2 e)
                \/ (exists msg,
                     resp = error_response
                              (u "Payment verification failed: " ++ msg) 400)
                \/ (exists msg,
                     resp = error_response
                              (u "An unexpected error occurred: " ++ msg)
                              500)))).
Proof.
  destruct (session_form_data env (count is_retrieve w) sid)
    as [e|fd] eqn:Hfd.
  - unfold payment_success, try_except2. unfold bind at 1.
    unfold retrieve_form_data. rewrite Hfd.
    destruct e as [msg|msg]; do 2 eexists;
      (split; [reflexivity|]); (split; [measure|]);
      right; (split; [reflexivity|]); eauto.
  - destruct (run_attempts_outcome fd (EvRetrieve sid :: w))
      as (resp & w' & Hrun & Heff & Hcases).
    exists resp, w'.
    split; [exact (payment_success_run U env sid w fd _ _ Hfd Hrun)|].
    split; [measure|].
    cbn [files] in Hcases.
    destruct Hcases as [Hok|[[-> Hf]|(e & -> & Hf)]]; [left; exact Hok| |];
      right; (split; [exact Hf|]); eauto.
Qed.

(** X8: [payment_success] never raises and never falls off its loop: for
    every payment record, form and behaviour of the collaborators it
    returns a response, whose status is 200, 202, 400 or 500. *)
Theorem payment_success_always_answers (sid : option (list N)) (w : World) :
  exists resp w',
    payment_success U env sid w = (inr (Some resp), w')
    /\ (status resp = 200 \/ status resp = 202
        \/ status resp = 400 \/ status resp = 500)%Z.
Proof.
  destruct (payment_success_outcome sid w) as (resp & w' & Hrun & _ & Hc).
  exists resp, w'. split; [exact Hrun|].
  destruct Hc as [(f & -> & _)|[_ [->|[(e & ->)|[(m & ->)|(m & ->)]]]]];
    cbn; tauto.
Qed.

(** X9: one invocation of [payment_success] makes at most six calls of
    the text-generation service and two renderer runs, reads [time.time()]
    at most three times and sleeps at most 13 seconds, whatever the
    collaborators do. *)
Theorem payment_success_effort_bounds (sid : option (list N)) (w : World) :
  let w' := snd (payment_success U env sid w) in
  chat_calls w' <= chat_calls w + 6
  /\ render_calls w' <= render_calls w + 2
  /\ clock_reads w' <= clock_reads w + 3
  /\ (total_sleep w' <= total_sleep w + 13)%Z.
Proof.
  destruct (payment_success_outcome sid w) as (resp & w' & -> & Heff & _).
  cbn [snd]. unfold effects_within in Heff. lia.
Qed.

(** X10: [payment_success] leaves exactly one new artifact when it answers
    200, the file whose name its [download_url] carries, and no new
    artifact when it answers anything else. *)
Theorem payment_success_artifact_iff_200 (sid : option (list N)) (w : World) :
  exists resp w',
    payment_success U env sid w = (inr (Some resp), w')
    /\ ((status resp = 200%Z
         /\ exists filename,
              body resp !! u "download_url"
              = Some (PyStr (u "/download/" ++ filename))
              /\ files w'
                 = path_join (DOWNLOAD_FOLDER env) filename :: files w)
        \/ (status resp <> 200%Z /\ files w' = files w)).
Proof.
  destruct (payment_success_outcome sid w) as (resp & w' & Hrun & _ & Hc).
  exists resp, w'. split; [exact Hrun|].
  destruct Hc as [(f & -> & Hf)|[Hf Hresp]].
  - left. split; [reflexivity|]. exists f.
    split; [apply success_result_url | exact Hf].
  - right. split; [|exact Hf].
    destruct Hresp as [->|[(e & ->)|[(m & ->)|(m & ->)]]]; cbn; lia.
Qed.



(** ** Where the artifact is written *)





(** X14: when the consultancy type of the form starts with a slash, the
    download folder plays no part in the path of the artifact: a
    successful call writes the file at the consultancy type followed by
    the underscore, the id and [.pdf]. *)
Theorem absolute_type_ignores_download_folder
    (fd : gmap (list N) (list N)) (w : World) (t : list N) :
  fd !! u "consultancy_type" = Some t ->
  startswith t [sep] = true ->
  let path := t ++ u "_" ++ take 8 (uuid4_hex env (count is_uuid w))
                ++ u ".pdf" in
  run_filepath env fd w = path
  /\ match generate_consultation U env fd w with
     | (inr _, w') => files w' = path :: files w
     | (inl _, w') => files w' = files w
     end.
Proof.
  intros Htype Hsep path.
  assert (Hpath : run_filepath env fd w = path).
  { unfold run_filepath, run_filename, artifact_name, path_join.
    rewrite Htype. cbn [fmt].
    destruct t as [|c t]; [discriminate|].
    cbn [startswith app] in *. now rewrite Hsep. }
  split; [exact Hpath|].
  destruct (generate_consultation_outcome fd w)
    as (r & w' & -> & _ & _ & Hr).
  destruct r as [e|d]; [exact Hr|].
  destruct Hr as (_ & Hf & _). now rewrite Hf, Hpath.
Qed.

(** ** The two retry layers together *)

(** X15: the outer loop recovers from an exhausted inner loop. When the
    first three calls of the text-generation service fail, the fourth
    answers, the budget test passes before both outer attempts and the
    typesetter accepts the document, [payment_success] answers 200 after
    four calls, the sleeps of 2 and 4 seconds of the inner loop and the
    sleep of 1 second of the outer loop, and one renderer run. *)
Theorem outer_retry_recovers
    (sid : option (list N)) (fd : gmap (list N) (list N)) (w : World)
    (e0 e1 e2 : exn) (text : list N) :
  let req := chat_request (prompt_of fd) in
  session_form_data env (count is_retrieve w) sid = inr fd ->
  chat_completions_create env (chat_calls w) req = inl e0 ->
  chat_completions_create env (1 + chat_calls w) req = inl e1 ->
  chat_completions_create env (2 + chat_calls w) req = inl e2 ->
  chat_completions_create env (3 + chat_calls w) req = inr text ->
  over_budget (time_time env (1 + clock_reads w))
              (time_time env (clock_reads w)) budget = false ->
  over_budget (time_time env (2 + clock_reads w))
              (time_time env (clock_reads w)) budget = false ->
  (forall path content, doc_build env (render_calls w) path content = None) ->
  exists filename w',
    payment_success U env sid w
    = (inr (Some (jsonify (success_result filename))), w')
    /\ chat_calls w' = 4 + chat_calls w
    /\ render_calls w' = 1 + render_calls w
    /\ sleeps w' = 1%Z :: 4%Z :: 2%Z :: sleeps w
    /\ files w' = path_join (DOWNLOAD_FOLDER env) filename :: files w.
Proof.
  intros req Hfd H0 H1 H2 H3 Hb1 Hb2 Hbuild.
  set (start := time_time env (clock_reads w)) in *.
  set (w0 := EvTime :: EvRetrieve sid :: w).
  pose proof (generate_consultation_exhausted U env fd (EvTime :: w0) _ _ _
                H0 H1 H2) as Hgen1.
  match type of Hgen1 with _ = (_, ?x) => set (w1 := x) in * end.
  set (w2 := attempt_retry_log 0 2 :: EvSleep 1
             :: attempt_exception_log 0 2
                  (generation_error (exhausted_error e2)) :: w1).
  assert (Hloop : chat_loop env (prompt_of fd) 3 (seq 0 3) 2 (EvTime :: w2)
                  = (inr (Some text), EvChat req :: EvTime :: w2)).
  { change (seq 0 3) with [0; 1; 2]. apply chat_loop_answer. exact H3. }
  pose proof (generate_consultation_success U env fd (EvTime :: w2) text _
                Hloop (Hbuild _ _)) as Hgen2.
  match type of Hgen2 with _ = (_, ?x) => set (w3 := x) in * end.
  exists (run_filename env fd (EvChat req :: EvTime :: w2)), w3.
  split.
  { apply (payment_success_run U env sid w fd _ _ Hfd).
    unfold run_attempts. unfold bind at 1. unfold time_now at 1.
    cbv zeta.
    etransitivity.
    { apply (attempts_loop_raised_retry U env fd start budget 2 0 [1] 1 w0 _ w1
               Hb1 Hgen1). simpl; lia. }
    apply (attempts_loop_returned U env fd start budget 2 1 [] 2 w2 _ w3
             Hb2 Hgen2).
    now rewrite success_result_success. }
  repeat split.
Qed.

End RunFacts.

(** * Concrete runs of the further properties *)

Lemma hash_only_line_empty_header_witness :
  render_para basic_latin (u " ## # ")
  = [Paragraph [] header_style; Spacer 1 10].
Proof.
  apply (hash_only_line_empty_header basic_latin (u " ## # "));
    reflexivity.
Defined.




Lemma absolute_type_ignores_download_folder_witness :
  exists w',
    generate_consultation basic_latin env_absolute_type absolute_type_form []
    = (inr (success_result (u "/tmp/report_01234567.pdf")), w')
    /\ files w' = [u "/tmp/report_01234567.pdf"].
Proof.
  destruct (absolute_type_ignores_download_folder basic_latin env_absolute_type
              absolute_type_form [] (u "/tmp/report"))
    as [_ Hfiles]; [reflexivity.. |].
  destruct (generate_consultation basic_latin env_absolute_type
              absolute_type_form []) as [r w'] eqn:Hrun.
  vm_compute in Hrun. injection Hrun as <- <-.
  eexists. split; [reflexivity | exact Hfiles].
Defined.

Lemma outer_retry_recovers_witness :
  exists filename w',
    payment_success basic_latin env_three_failures None []
    = (inr (Some (jsonify (success_result filename))), w')
    /\ chat_calls w' = 4
    /\ sleeps w' = [1; 4; 2]%Z.
Proof.
  destruct (outer_retry_recovers basic_latin env_three_failures None acme_form
              [] (Exception (u "timeout")) (Exception (u "timeout"))
              (Exception (u "timeout")) sample_report)
    as (filename & w' & Hrun & Hchat & _ & Hsleeps & _);
    [reflexivity | reflexivity | reflexivity | reflexivity | reflexivity
     | reflexivity | reflexivity | intros; reflexivity |].
  exists filename, w'. repeat split; assumption.
Defined.

(** * The health probe *)

Lemma str_eqb_eq (a b : list N) : str_eqb a b = true <-> a = b.
Proof.
  revert b. induction a as [|x a IH]; intros [|y b]; cbn [str_eqb];
    try (split; [discriminate | discriminate]); [easy|].
  unfold chr_eqb. rewrite andb_true_iff, N.eqb_eq, IH.
  split; [intros [-> ->]; reflexivity | intros [= -> ->]; auto].
Qed.

Lemma str_in_elem (x : list N) (l : list (list N)) :
  str_in x l = true <-> x ∈ l.
Proof.
  unfold str_in. rewrite existsb_exists, list_elem_of_In. split.
  - intros (y & Hy & ->%str_eqb_eq). exact Hy.
  - intros H. exists x. split; [exact H | now apply str_eqb_eq].
Qed.

(** X16: the verdict of the health probe depends on the payment provider
    alone. When the account is retrieved the probe answers 200 [healthy]
    whatever the text-generation service does, an exception of that
    service included; when the retrieval raises, the probe answers 500
    [unhealthy] with the message and does not ask the text-generation
    service at all. *)
Theorem health_follows_stripe (h : HealthEnv) :
  match account_retrieve h with
  | None =>
      status (fst (health_check h)) = 200%Z
      /\ body (fst (health_check h)) !! u "status"
         = Some (PyStr (u "healthy"))
      /\ body (fst (health_check h)) !! u "stripe" = Some (PyStr (u "ok"))
      /\ snd (health_check h) = [ProbeModels 5; ProbeStripe]
  | Some e =>
      status (fst (health_check h)) = 500%Z
      /\ body (fst (health_check h)) !! u "status"
         = Some (PyStr (u "unhealthy"))
      /\ body (fst (health_check h)) !! u "error" = Some (PyStr (str_exn e))
      /\ snd (health_check h) = [ProbeStripe]
  end.
Proof.
  unfold health_check.
  destruct (account_retrieve h) as [e|]; cbn [fst snd body status jsonify
    jsonify_status].
  - split; [reflexivity|]. split; [apply lookup_insert_eq|].
    split; [|reflexivity].
    rewrite lookup_insert_ne by (vm_compute; discriminate).
    apply lookup_insert_eq.
  - split; [reflexivity|]. split; [apply lookup_insert_eq|].
    split; [|reflexivity].
    do 2 rewrite lookup_insert_ne by (vm_compute; discriminate).
    apply lookup_insert_eq.
Qed.

(** X17: when the payment provider is reachable, the probe reports the
    text-generation service as [ok] exactly when the service lists its
    models and [gpt-4-turbo-preview] is among them. *)
Theorem health_openai_ok_iff (h : HealthEnv) :
  account_retrieve h = None ->
  body (fst (health_check h)) !! u "openai" = Some (PyStr (u "ok"))
  <-> exists available_models,
        models_list h = inr available_models
        /\ u "gpt-4-turbo-preview" ∈ available_models.
Proof.
  intros Hacc. unfold health_check. rewrite Hacc.
  cbn [fst body jsonify].
  do 3 rewrite lookup_insert_ne by (vm_compute; discriminate).
  rewrite lookup_singleton_eq.
  destruct (models_list h) as [e|l].
  - split; [intros [= H]; discriminate H | intros (l & Hl & _); discriminate].
  - destruct (str_in (u "gpt-4-turbo-preview") l) eqn:Hin; cbn [negb].
    + split; [|reflexivity]. intros _. exists l.
      split; [reflexivity | now apply str_in_elem].
    + split; [intros [= H]; discriminate H|].
      intros (l' & [= <-] & Hl). apply str_in_elem in Hl. congruence.
Qed.

Lemma health_openai_ok_iff_witness :
  body (fst (health_check health_all_up)) !! u "openai"
  = Some (PyStr (u "ok")).
Proof.
  apply (health_openai_ok_iff health_all_up); [reflexivity|].
  exists [u "gpt-4o"; u "gpt-4-turbo-preview"].
  split; [reflexivity|]. right. left.
Defined.

(** The probe stays healthy when the text-generation service is down and
    turns unhealthy when the payment provider is. *)
Example health_check_runs :
  status (fst (health_check health_openai_down)) = 200%Z
  /\ body (fst (health_check health_openai_down)) !! u "openai"
     = Some (PyStr (u "error: Connection error."))
  /\ status (fst (health_check health_stripe_down)) = 500%Z
  /\ snd (health_check health_stripe_down) = [ProbeStripe].
Proof. repeat split. Qed.

(** * Texts without content and the uppercase rule *)

Section EdgeFacts.

Context (U : CaseTables).

Lemma render_para_blank (line : list N) :
  blank line -> render_para U line = [].
Proof.
  intros H%nonblank_false_iff. unfold render_para.
  unfold nonblank in H. now rewrite H.
Qed.

Lemma split_chr_blank (text : list N) :
  blank text -> Forall blank (split_chr 10 text).
Proof.
  unfold blank at 1. induction text as [|c text IH]; cbn [forallb split_chr].
  - intros _. repeat constructor.
  - intros [Hc Ht]%andb_true_iff. specialize (IH Ht).
    destruct (chr_eqb c 10).
    + constructor; [reflexivity | exact IH].
    + destruct (split_chr 10 text) as [|piece pieces];
        [repeat constructor; unfold blank; cbn [forallb]; now rewrite Hc|].
      inversion IH as [|? ? Hp Hps]; subst.
      constructor; [|exact Hps].
      unfold blank in *. cbn [forallb]. now rewrite Hc, Hp.
Qed.

(** X18: a generated text that is empty or holds nothing but whitespace
    and line breaks adds nothing to the document: the typesetter receives
    the title block alone. *)
Theorem blank_text_title_block_only
    (text : list N) (business_name : option (list N))
    (document_type date : list N) :
  blank text ->
  pdf_content U text business_name document_type date
  = [ Paragraph (str_upper U document_type) title_style;
      Paragraph (u "For: " ++ fmt business_name) title_style;
      Spacer 1 20;
      Paragraph (u "Date: " ++ date) date_style;
      Spacer 1 20 ].
Proof.
  intros Hblank. unfold pdf_content.
  assert (Hnil : flat_map (render_para U) (split_chr 10 text) = []).
  { pose proof (split_chr_blank text Hblank) as Hall.
    induction Hall as [|l ls Hl _ IH]; [reflexivity|].
    cbn [flat_map]. now rewrite (render_para_blank l Hl), IH. }
  now rewrite Hnil.
Qed.

(** X19: the uppercase rule comes before the bullet and signature rules.
    A line whose trimmed form is uppercase, longer than three characters
    and does not start with ['#'] is laid out as an uppercase header, with
    its trimmed text, the header style and the larger spacer, also when
    it starts with a bullet marker or contains [SIGN] or [DATE:]. *)
Theorem uppercase_rule_beats_bullet_and_signature (line : list N) :
  startswith (strip line) (u "#") = false ->
  isupper U (strip line) = true ->
  3 < length (strip line) ->
  classify U line = UppercaseHeader
  /\ render_para U line = [Paragraph (strip line) header_style; Spacer 1 10].
Proof.
  intros Hhash Hup Hlen.
  assert (Hne : str_truthy (strip line) = true)
    by (destruct (strip line); [cbn [length] in Hlen; lia | reflexivity]).
  apply Nat.ltb_lt in Hlen.
  assert (Hc : classify U line = UppercaseHeader).
  { unfold classify. now rewrite Hne, Hhash, Hup, Hlen. }
  split; [exact Hc|].
  rewrite render_para_classify, Hc. unfold spacer_after.
  now rewrite Hhash, Hup.
Qed.

End EdgeFacts.

Lemma blank_text_title_block_only_witness :
  length (pdf_content basic_latin [32; 10; 9; 10; 10]%N (Some (u "Acme"))
            (u "AI Readiness Audit") (u "January 01, 2025")) = 5.
Proof.
  rewrite (blank_text_title_block_only basic_latin [32; 10; 9; 10; 10]%N);
    reflexivity.
Defined.

Lemma uppercase_rule_beats_bullet_and_signature_witness :
  classify basic_latin (u "- SIGN AND DATE: ADOPT AI NOW") = UppercaseHeader
  /\ render_para basic_latin (u "- SIGN AND DATE: ADOPT AI NOW")
     = [Paragraph (u "- SIGN AND DATE: ADOPT AI NOW") header_style;
        Spacer 1 10].
Proof.
  apply (uppercase_rule_beats_bullet_and_signature basic_latin
           (u "- SIGN AND DATE: ADOPT AI NOW"));
    [reflexivity | reflexivity | vm_compute; lia].
Defined.
